(** * ChiMei_HealthInsurancePredict: product lookup and history reconciliation

    A shallow embedding of [AssitantAPP/HistoryDataSearch.py] and
    [AssitantAPP/IndexSQL.py].

    - Python [str] values are sequences of Unicode code points ([ustr]).
    - A pandas cell is a [Cell]: a missing value, a text or an integer.
    - A pandas row is a dictionary from column labels to cells; a
      [DataFrame] is its list of column labels together with its rows.
    - The file system is a finite map from paths to file entries; the code
      that reads and writes files threads it explicitly.
    - Exceptions are values of [PyExn]; code that may raise returns an
      [Outcome].

    What the Python and SQLite run-time libraries compute from Unicode
    tables, the operating system or third-party scorers is taken as a
    section variable: [nfkc] (unicodedata.normalize("NFKC", _)), [lower]
    (str.lower), [score] (fuzz.token_set_ratio after fuzzywuzzy's default
    processing), [path_join] and [path_dirname] (os.path) and
    [os_error_str] (the text of an OSError). *)

From Stdlib Require Import ZArith NArith Ascii DecimalString.
From stdpp Require Import gmap strings list sorting.

Open Scope string_scope.
Open Scope list_scope.

(** ** Text *)

(** A Python [str]: the sequence of its code points. *)
Definition ustr := list N.

(** The code points of an ASCII literal. *)
Definition u (s : string) : ustr :=
  map (fun a => Ascii.N_of_ascii a) (String.list_ascii_of_string s).

(** Python's [str(n)] for an [int]. *)
Definition py_str_int (z : Z) : string := NilZero.string_of_int (Z.to_int z).

(** Python's [str(n)] for a length or count. *)
Definition py_str_nat (n : nat) : string := NilZero.string_of_uint (Nat.to_uint n).

Module Text.

(** [str.isspace] on one character, which is also the class [\s] of [re]
    on [str] patterns. *)
Definition isspace (c : N) : bool :=
  ((0x9 <=? c) && (c <=? 0xD) || (0x1C <=? c) && (c <=? 0x20)
   || (c =? 0x85) || (c =? 0xA0) || (c =? 0x1680)
   || (0x2000 <=? c) && (c <=? 0x200A)
   || (c =? 0x2028) || (c =? 0x2029) || (c =? 0x202F) || (c =? 0x205F)
   || (c =? 0x3000))%N.

(** [s.lstrip()] *)
Fixpoint lstrip (s : ustr) : ustr :=
  match s with
  | [] => []
  | c :: t => if isspace c then lstrip t else s
  end.

(** [s.rstrip()] *)
Definition rstrip (s : ustr) : ustr := rev (lstrip (rev s)).

(** [s.strip()] *)
Definition strip (s : ustr) : ustr := rstrip (lstrip s).

(** [re.sub(r"\s+", " ", s)]: [in_run] tells that the previous character
    belonged to the whitespace run being replaced. *)
Fixpoint sub_ws (in_run : bool) (s : ustr) : ustr :=
  match s with
  | [] => []
  | c :: t =>
      if isspace c
      then (if in_run then sub_ws true t else 0x20%N :: sub_ws true t)
      else c :: sub_ws false t
  end.

Definition re_sub_ws (s : ustr) : ustr := sub_ws false s.

(** [s] is in whitespace-normal form: stripping it and collapsing its
    whitespace change nothing. *)
Definition ws_normal (s : ustr) : Prop := re_sub_ws (strip s) = s.

(** The last character of [s], if any, is not whitespace. *)
Fixpoint ends_ok (s : ustr) : bool :=
  match s with
  | [] => true
  | c :: t => match t with [] => negb (isspace c) | _ :: _ => ends_ok t end
  end.

(** The first character of [s], if any, is not whitespace. *)
Definition starts_ok (s : ustr) : bool :=
  match s with [] => true | c :: _ => negb (isspace c) end.

(** Every whitespace character of [s] is a single U+0020 followed by a
    character that is not whitespace. *)
Fixpoint canon (s : ustr) : bool :=
  match s with
  | [] => true
  | c :: t =>
      if isspace c
      then (c =? 0x20)%N
           && match t with [] => false | _ :: _ => starts_ok t end
           && canon t
      else canon t
  end.

(** [k in s] for two [str]. *)
Fixpoint prefixb (k s : ustr) : bool :=
  match k, s with
  | [], _ => true
  | _ :: _, [] => false
  | a :: k', b :: s' => (a =? b)%N && prefixb k' s'
  end.

Fixpoint contains (k s : ustr) : bool :=
  prefixb k s || match s with [] => false | _ :: s' => contains k s' end.

End Text.

(** ** Cells and the normalizer *)

(** A value found in a pandas cell. [NaN] stands for every missing-value
    marker ([nan], [None], [pd.NA]); floating-point cells other than [nan]
    are not represented. *)
Inductive Cell : Type :=
| NaN
| Str (s : ustr)
| Int (z : Z).

Global Instance Cell_eq_dec : EqDecision Cell.
Proof. solve_decision. Defined.

(** [pd.isna(s)] on a scalar. *)
Definition isna (s : Cell) : bool :=
  match s with NaN => true | _ => false end.

(** [str(s)] *)
Definition py_str (s : Cell) : ustr :=
  match s with
  | NaN => u "nan"
  | Str t => t
  | Int z => u (py_str_int z)
  end.

(** The characters of the decimal text of an integer. *)
Definition numeric_char (c : N) : bool :=
  ((c =? 0x2D) || (0x30 <=? c) && (c <=? 0x39))%N.

Definition numeric_text (s : ustr) : Prop :=
  Forall (fun c => numeric_char c = true) s.

Section Normalizer.

Variable nfkc : ustr -> ustr.
Variable lower : ustr -> ustr.

(** HistoryDataSearch.py, [clean_str]. *)
Definition clean_str (s : Cell) : ustr :=
  if isna s then []
  else
    let s1 := nfkc (py_str s) in
    let s2 := Text.strip s1 in
    let s3 := Text.re_sub_ws s2 in
    lower s3.

End Normalizer.

(** ** A fragment of the Unicode tables

    Enough of NFKC and of lower-casing to run the functions on concrete
    texts. [nfkc_fragment] agrees with [unicodedata.normalize("NFKC", _)]
    on texts made of ASCII characters, the full-width forms U+FF01..U+FF5E,
    U+00A0, U+3000, U+01F0, and U+030C directly after a letter j or J (plain
    or full-width); [lower_fragment] agrees with [str.lower] on texts whose
    cased characters are ASCII letters. *)
Module UnicodeFragment.

Definition compat (c : N) : ustr :=
  (if (0xFF01 <=? c) && (c <=? 0xFF5E) then [c - 0xFEE0]
   else if (c =? 0x3000) || (c =? 0xA0) then [0x20]
   else if c =? 0x1F0 then [0x6A; 0x30C]
   else [c])%N.

Fixpoint compose (s : ustr) : ustr :=
  match s with
  | [] => []
  | c :: t =>
      match t with
      | d :: t' =>
          if ((c =? 0x6A) && (d =? 0x30C))%N then 0x1F0%N :: compose t'
          else c :: compose t
      | [] => [c]
      end
  end.

Definition nfkc_fragment (s : ustr) : ustr := compose (flat_map compat s).

Definition ascii_lower (c : N) : N :=
  (if (0x41 <=? c) && (c <=? 0x5A) then c + 0x20 else c)%N.

Definition lower_fragment (s : ustr) : ustr := map ascii_lower s.

Definition normalize : Cell -> ustr := clean_str nfkc_fragment lower_fragment.

End UnicodeFragment.

(** ** Exceptions and outcomes *)

(** The exception classes the two programs can meet. [EmptyDataError] is
    pandas' subclass of [ValueError]; [FileNotFoundError] and
    [IsADirectoryError] are subclasses of [OSError]; [OperationalError] is
    sqlite3's. *)
Inductive ExnClass : Type :=
| FileNotFoundError
| IsADirectoryError
| ValueError
| EmptyDataError
| OperationalError.

Record PyExn : Type := mkExn { exn_class : ExnClass; exn_str : string }.

(** [isinstance(e, FileNotFoundError)] and [isinstance(e, ValueError)]. *)
Definition is_FileNotFoundError (e : PyExn) : bool :=
  match exn_class e with FileNotFoundError => true | _ => false end.

Definition is_ValueError (e : PyExn) : bool :=
  match exn_class e with ValueError | EmptyDataError => true | _ => false end.

Inductive Outcome (A : Type) : Type :=
| Return (a : A)
| Raise (e : PyExn).
Arguments Return {A} a.
Arguments Raise {A} e.

Global Instance Outcome_ret : MRet Outcome := fun A a => Return a.
Global Instance Outcome_bind : MBind Outcome := fun A B f m =>
  match m with
  | Return a => f a
  | Raise e => Raise e
  end.

(** ** Data frames *)

(** A row is a dictionary from column labels to cells. Reading a label the
    row lacks gives [NaN]; the programs only read columns whose presence
    they have checked or that they have just created. *)
Definition get (c : string) (r : gmap string Cell) : Cell :=
  default NaN (r !! c).

Record DataFrame : Type := mkDF {
  columns : list string;
  rows : list (gmap string Cell)
}.

(** [pd.DataFrame()] *)
Definition empty_frame : DataFrame := mkDF [] [].

(** [len(df)] *)
Definition nrows (df : DataFrame) : nat := length (rows df).

(** [df[c]] as the list of its cells. *)
Definition column (c : string) (df : DataFrame) : list Cell :=
  map (get c) (rows df).

Module Frame.

(** [df[dst] = df[src].apply(f)] *)
Definition assign_apply (dst src : string) (f : Cell -> Cell)
    (df : DataFrame) : DataFrame :=
  {| columns := if bool_decide (dst ∈ columns df) then columns df
                else columns df ++ [dst];
     rows := map (fun r => <[dst := f (get src r)]> r) (rows df) |}.

(** [df[cols]] for a list of labels. *)
Definition select (cols : list string) (df : DataFrame) : DataFrame :=
  {| columns := cols;
     rows := map (fun r => list_to_map (map (fun c => (c, get c r)) cols))
                 (rows df) |}.

(** [df.drop_duplicates()]: the first occurrence of every row is kept. *)
Fixpoint keep_first (l : list (gmap string Cell)) : list (gmap string Cell) :=
  match l with
  | [] => []
  | r :: l' => r :: filter (fun r' => r' ≠ r) (keep_first l')
  end.

Definition drop_duplicates (df : DataFrame) : DataFrame :=
  {| columns := columns df; rows := keep_first (rows df) |}.

(** [df.drop(columns=cols)] *)
Definition drop (cols : list string) (df : DataFrame) : DataFrame :=
  {| columns := filter (fun c => c ∉ cols) (columns df);
     rows := map (fun r => foldr delete r cols) (rows df) |}.

(** Labels present on both sides of a merge get the suffixes [_x] and
    [_y]. *)
Definition overlap (L R : list string) : list string :=
  filter (fun c => c ∈ R) L.

Definition rename (ov : list string) (sfx c : string) : string :=
  if bool_decide (c ∈ ov) then c +:+ sfx else c.

Definition merged_columns (L R : list string) : list string :=
  map (rename (overlap L R) "_x") L ++ map (rename (overlap L R) "_y") R.

Definition merged_row (L R : list string) (l r : gmap string Cell)
    : gmap string Cell :=
  list_to_map
    (map (fun c => (rename (overlap L R) "_x" c, get c l)) L ++
     map (fun c => (rename (overlap L R) "_y" c, get c r)) R).

(** Two merge keys match when they are the same value; pandas also matches
    a missing key with a missing key. *)
Definition key_eq (a b : Cell) : bool := bool_decide (a = b).

(** The rows of [right] whose key equals the key of the left row [l]. *)
Definition matching (left_on right_on : string) (right : DataFrame)
    (l : gmap string Cell) : list (gmap string Cell) :=
  filter (fun r => key_eq (get left_on l) (get right_on r) = true) (rows right).

(** [pd.merge(left, right, left_on=.., right_on=.., how="inner")] with two
    different key labels. *)
Definition merge_inner (left right : DataFrame) (left_on right_on : string)
    : DataFrame :=
  {| columns := merged_columns (columns left) (columns right);
     rows :=
       flat_map
         (fun l => map (merged_row (columns left) (columns right) l)
                       (matching left_on right_on right l))
         (rows left) |}.

Definition indicator_both : Cell := Str (u "both").
Definition indicator_left_only : Cell := Str (u "left_only").

(** The rows a left row contributes to a left merge with indicator. *)
Definition left_rows (left right : DataFrame) (left_on right_on : string)
    (l : gmap string Cell) : list (gmap string Cell) :=
  match matching left_on right_on right l with
  | [] =>
      [ <["_merge" := indicator_left_only]>
          (merged_row (columns left) (columns right) l ∅) ]
  | ms =>
      map (fun r => <["_merge" := indicator_both]>
                      (merged_row (columns left) (columns right) l r)) ms
  end.

(** The labels [indicator=True] refuses in either frame. *)
Definition reserved_indicator_columns : list string :=
  ["_left_indicator"; "_right_indicator"; "_merge"].

(** [left.merge(right, left_on=.., right_on=.., how="left",
    indicator=True)] *)
Definition merge_left_indicator (left right : DataFrame)
    (left_on right_on : string) : Outcome DataFrame :=
  match filter (fun c => c ∈ (columns left ++ columns right)%list)
               reserved_indicator_columns with
  | c :: _ =>
      Raise (mkExn ValueError
        (if bool_decide (c = "_merge")
         then "Cannot use name of an existing column for indicator column"
         else "Cannot use `indicator=True` option when data contains a column named " +:+ c))
  | [] =>
      Return
        {| columns :=
             merged_columns (columns left) (columns right) ++ ["_merge"];
           rows := flat_map (left_rows left right left_on right_on)
                            (rows left) |}
  end.

(** [df[c].sum()] for a column of integers. *)
Definition cell_int (c : Cell) : Z :=
  match c with Int z => z | _ => 0%Z end.

Definition sum_column (c : string) (df : DataFrame) : Z :=
  foldr Z.add 0%Z (map cell_int (column c df)).

End Frame.

(** ** Files *)

(** What a path of the file system holds: a CSV file, given by the frame
    [pd.read_csv] parses from it, a file of zero bytes, or a directory. *)
Inductive FileEntry : Type :=
| CsvFile (df : DataFrame)
| EmptyFile
| Directory.

Definition newline : string := String (Ascii.ascii_of_nat 10) "".

(** [repr] of a label without quote, backslash or control character, and
    of a list of such labels. *)
Definition py_repr_label (s : string) : string := "'" +:+ s +:+ "'".

Fixpoint join_with (sep : string) (l : list string) : string :=
  match l with
  | [] => ""
  | [s] => s
  | s :: l' => s +:+ sep +:+ join_with sep l'
  end.

Definition py_repr_labels (l : list string) : string :=
  "[" +:+ join_with ", " (map py_repr_label l) +:+ "]".

(** [x or d] for an optional path. *)
Definition py_or (x : option string) (d : string) : string :=
  match x with
  | Some s => if bool_decide (s = "") then d else s
  | None => d
  end.

Section Files.

(** [str(e)] of the [OSError] of the given class raised on a path. *)
Variable os_error_str : ExnClass -> string -> string.

(** [pd.read_csv(path, encoding="utf-8")] *)
Definition read_csv (path : string) (fs : gmap string FileEntry)
    : Outcome DataFrame :=
  match fs !! path with
  | None =>
      Raise (mkExn FileNotFoundError (os_error_str FileNotFoundError path))
  | Some Directory =>
      Raise (mkExn IsADirectoryError (os_error_str IsADirectoryError path))
  | Some EmptyFile =>
      Raise (mkExn EmptyDataError "No columns to parse from file")
  | Some (CsvFile df) => Return df
  end.

(** [df.to_csv(path, ...)] *)
Definition to_csv (path : string) (df : DataFrame) (fs : gmap string FileEntry)
    : Outcome (gmap string FileEntry) :=
  match fs !! path with
  | Some Directory =>
      Raise (mkExn IsADirectoryError (os_error_str IsADirectoryError path))
  | _ => Return (<[path := CsvFile df]> fs)
  end.

End Files.

(** ** HistoryDataSearch.py *)

Module History.

Definition required_format : list string := ["核價類別"].
Definition required_index : list string := ["名稱"; "功能類別(前5碼)"].
Definition required_price : list string := ["特材代碼前五碼"; "核價類別名稱"].

(** The columns of [cols] that [df] lacks. *)
Definition missing_columns (cols : list string) (df : DataFrame)
    : list string :=
  filter (fun c => c ∉ columns df) cols.

(** Step 3: the loop over [required_cols.items()]; [locals()[df_name]] is
    the frame of that name (the meaning of [locals()] inside a
    comprehension since Python 3.12). *)
Fixpoint check_columns (l : list (string * list string * DataFrame))
    : Outcome unit :=
  match l with
  | [] => Return tt
  | (df_name, cols, df) :: l' =>
      match missing_columns cols df with
      | [] => check_columns l'
      | missing =>
          Raise (mkExn ValueError
                   (df_name +:+ " 缺少欄位: " +:+ py_repr_labels missing))
      end
  end.

Definition drop_cols : list string := ["名稱_clean"; "核價類別_clean"; "_merge"].

Definition output_columns : list string :=
  ["年份"; "特材代碼"; "特材代碼前五碼"; "核價類別名稱";
   "中英文品名"; "產品型號/規格"; "單位"; "支付點數";
   "申請者簡稱"; "許可證字號"; "中文品名"; "英文品名";
   "點數變更記錄"].

(** Step 8: [(result["_merge"] == "both").astype(int)], cell by cell. *)
Definition flag_of_indicator (c : Cell) : Cell :=
  Int (if bool_decide (c = Frame.indicator_both) then 1 else 0)%Z.

Section Reconcile.

Variable nfkc : ustr -> ustr.
Variable lower : ustr -> ustr.
Variable os_error_str : ExnClass -> string -> string.
Variable path_join : string -> string -> string.

Definition clean_cell (c : Cell) : Cell := Str (clean_str nfkc lower c).

(** Step 4: the [*_clean] columns. *)
Definition with_clean_format (df_format : DataFrame) : DataFrame :=
  Frame.assign_apply "核價類別_clean" "核價類別" clean_cell df_format.

Definition with_clean_index (df_index : DataFrame) : DataFrame :=
  Frame.assign_apply "名稱_clean" "名稱" clean_cell df_index.

Definition with_clean_price (df_price : DataFrame) : DataFrame :=
  Frame.assign_apply "核價類別名稱_clean" "核價類別名稱" clean_cell df_price.

(** Step 5: the inner merge on the raw classification code. The arguments
    are the frames as read from the files. *)
Definition stage1 (df_index df_price : DataFrame) : DataFrame :=
  Frame.merge_inner
    (with_clean_price df_price)
    (Frame.select ["功能類別(前5碼)"; "名稱_clean"] (with_clean_index df_index))
    "特材代碼前五碼" "功能類別(前5碼)".

(** Step 6: the valid categories. *)
Definition df_format_valid (df_format : DataFrame) : DataFrame :=
  Frame.drop_duplicates
    (Frame.select ["核價類別_clean"] (with_clean_format df_format)).

(** Step 7: the left merge with indicator. *)
Definition stage2 (df_format df_index df_price : DataFrame)
    : Outcome DataFrame :=
  Frame.merge_left_indicator
    (stage1 df_index df_price) (df_format_valid df_format)
    "核價類別名稱_clean" "核價類別_clean".

(** Step 8 *)
Definition with_flag (result : DataFrame) : DataFrame :=
  Frame.assign_apply "點數變更記錄" "_merge" flag_of_indicator result.

(** Step 9 *)
Definition project (result : DataFrame) : DataFrame :=
  let result1 :=
    Frame.drop (filter (fun c => c ∈ columns result) drop_cols) result in
  Frame.select (filter (fun c => c ∈ columns result1) output_columns) result1.

(** Steps 4 to 9 on the three frames. *)
Definition reconcile (df_format df_index df_price : DataFrame)
    : Outcome DataFrame :=
  result ← stage2 df_format df_index df_price;
  mret (project (with_flag result)).

Definition summary (result : DataFrame) (output_file : string) : string :=
  "處理完成，共 " +:+ py_str_nat (nrows result) +:+ " 筆資料；" +:+
  "點數變更記錄=1：" +:+ py_str_int (Frame.sum_column "點數變更記錄" result) +:+
  " 筆" +:+ newline +:+
  "已輸出 → " +:+ output_file.

(** The body of the [try] statement: steps 2 to 10. *)
Definition try_body (format_file index_file price_file output_file : string)
    (fs : gmap string FileEntry)
    : Outcome (DataFrame * string * gmap string FileEntry) :=
  df_format ← read_csv os_error_str format_file fs;
  df_index ← read_csv os_error_str index_file fs;
  df_price ← read_csv os_error_str price_file fs;
  _ ← check_columns [("df_format", required_format, df_format);
                      ("df_index", required_index, df_index);
                      ("df_price", required_price, df_price)];
  result ← reconcile df_format df_index df_price;
  fs' ← to_csv os_error_str output_file result fs;
  mret (result, summary result output_file, fs').

(** *** The vocabulary of the claims about the reconciliation *)

(** The three frames pass step 3. *)
Definition validated (df_format df_index df_price : DataFrame) : Prop :=
  check_columns [("df_format", required_format, df_format);
                 ("df_index", required_index, df_index);
                 ("df_price", required_price, df_price)] = Return tt.

(** The first frame that lacks required columns, with those columns. *)
Definition first_missing (df_format df_index df_price : DataFrame)
    : option (string * list string) :=
  head (filter (fun nm => nm.2 <> [])
          [("df_format", missing_columns required_format df_format);
           ("df_index", missing_columns required_index df_index);
           ("df_price", missing_columns required_price df_price)]).

(** The set of the normalized category names of [df_format]. *)
Definition valid_category_set (df_format : DataFrame) : gset ustr :=
  list_to_set
    (map (fun r => clean_str nfkc lower (get "核價類別" r)) (rows df_format)).

(** The normalized category name of a row of the price table, or of a row
    of the stage-1 result. *)
Definition normalized_category (r : gmap string Cell) : ustr :=
  clean_str nfkc lower (get "核價類別名稱" r).

Definition category_valid (df_format : DataFrame) (r : gmap string Cell)
    : bool :=
  bool_decide (normalized_category r ∈ valid_category_set df_format).

(** The rows of the expanded table whose code is the code prefix of the
    price row [p]. *)
Definition same_code (df_index : DataFrame) (p : gmap string Cell)
    : list (gmap string Cell) :=
  filter (fun r => get "特材代碼前五碼" p = get "功能類別(前5碼)" r)
         (rows df_index).

(** The price row with its normalized category name, and the two cells
    taken from a row of the expanded table. *)
Definition price_row (p : gmap string Cell) : gmap string Cell :=
  <["核價類別名稱_clean" := clean_cell (get "核價類別名稱" p)]> p.

Definition index_row (i : gmap string Cell) : gmap string Cell :=
  list_to_map
    [("功能類別(前5碼)", get "功能類別(前5碼)" i);
     ("名稱_clean", clean_cell (get "名稱" i))].

Definition stage1_row (df_price : DataFrame) (p i : gmap string Cell)
    : gmap string Cell :=
  Frame.merged_row (columns (with_clean_price df_price))
             ["功能類別(前5碼)"; "名稱_clean"] (price_row p) (index_row i).

(** The row of the valid-category table made from a row of [df_format]. *)
Definition valid_row (f : gmap string Cell) : gmap string Cell :=
  list_to_map [("核價類別_clean", clean_cell (get "核價類別" f))].

(** The three [except] clauses, in their order. *)
Definition handler (e : PyExn) : string :=
  if is_FileNotFoundError e then "檔案不存在：" +:+ exn_str e
  else if is_ValueError e then "資料欄位錯誤：" +:+ exn_str e
  else "未預期錯誤：" +:+ exn_str e.

(** The [try] statement with its [except] clauses: the returned pair and
    the file system it leaves. *)
Definition try_except (format_file index_file price_file output_file : string)
    (fs : gmap string FileEntry)
    : (option DataFrame * string) * gmap string FileEntry :=
  match try_body format_file index_file price_file output_file fs with
  | Return (result, msg, fs') => ((Some result, msg), fs')
  | Raise e => ((None, handler e), fs)
  end.

(** [HistoryDataSearch(base_dir, data_dir, format_file, index_file,
    price_file, output_file)] *)
Definition HistoryDataSearch (base_dir : string)
    (data_dir format_file index_file price_file output_file : option string)
    (fs : gmap string FileEntry)
    : (option DataFrame * string) * gmap string FileEntry :=
  let data_dir := py_or data_dir (path_join base_dir "data") in
  let format_file := py_or format_file (path_join data_dir "format_clean.csv") in
  let index_file := py_or index_file (path_join data_dir "IndexSQL_find.csv") in
  let price_file :=
    py_or price_file (path_join data_dir "價量調查品項108-112_FINAL.csv") in
  let output_file := py_or output_file (path_join data_dir "HistoryData.csv") in
  try_except format_file index_file price_file output_file fs.

End Reconcile.

End History.

(** ** IndexSQL.py *)

Module IndexSQL.

(** A row of the table [products]. Every column has type TEXT, so a field
    holds a text or NULL ([None]). *)
Record ProductRow : Type := mkProduct {
  code : option ustr;        (* 功能類別(前5碼) *)
  name : option ustr;        (* 名稱 *)
  size_class : option ustr;  (* 大小類 *)
  type_class : option ustr   (* 類別 *)
}.

Global Instance ProductRow_eq_dec : EqDecision ProductRow.
Proof. solve_decision. Defined.

Definition product_columns : list string :=
  ["功能類別(前5碼)"; "名稱"; "大小類"; "類別"].

(** What SQLite stores in a TEXT column for a pandas cell. *)
Definition sql_text (c : Cell) : option ustr :=
  match c with
  | NaN => None
  | Str s => Some s
  | Int z => Some (u (py_str_int z))
  end.

Definition product_of_row (r : gmap string Cell) : ProductRow :=
  {| code := sql_text (get "功能類別(前5碼)" r);
     name := sql_text (get "名稱" r);
     size_class := sql_text (get "大小類" r);
     type_class := sql_text (get "類別" r) |}.

(** [df.to_sql("products", conn, if_exists="append", index=False)] on the
    emptied table: a column the table lacks is refused. *)
Definition to_sql (df : DataFrame) : Outcome (list ProductRow) :=
  match filter (fun c => c ∉ product_columns) (columns df) with
  | c :: _ =>
      Raise (mkExn OperationalError ("table products has no column named " +:+ c))
  | [] => Return (map product_of_row (rows df))
  end.

(** *** SQLite's LIKE *)

Definition percent : N := 0x25%N.
Definition underscore : N := 0x5F%N.

(** SQLite folds the case of ASCII letters only. *)
Definition sqlite_tolower (c : N) : N :=
  (if (0x41 <=? c) && (c <=? 0x5A) then c + 0x20 else c)%N.

Definition like_char_eq (c d : N) : bool :=
  ((c =? d) || (c <? 0x80) && (d <? 0x80) && (sqlite_tolower c =? sqlite_tolower d))%N.

(** [text LIKE pattern], without ESCAPE clause: [%] matches any sequence of
    characters and [_] any one character. *)
Fixpoint like (pattern : ustr) : ustr -> bool :=
  match pattern with
  | [] => fun text => match text with [] => true | _ => false end
  | c :: p =>
      if (c =? percent)%N then
        fix star (text : ustr) : bool :=
          like p text || match text with [] => false | _ :: t => star t end
      else if (c =? underscore)%N then
        fun text => match text with [] => false | _ :: t => like p t end
      else
        fun text =>
          match text with
          | [] => false
          | d :: t => like_char_eq c d && like p t
          end
  end.

(** SQL's three-valued logic: [None] is NULL. *)
Definition sql_like (pattern : ustr) (v : option ustr) : option bool :=
  like pattern <$> v.

Definition sql_or (a b : option bool) : option bool :=
  match a, b with
  | Some true, _ | _, Some true => Some true
  | Some false, Some false => Some false
  | _, _ => None
  end.

(** A row passes WHERE when the condition is true. *)
Definition sql_true (a : option bool) : bool :=
  match a with Some true => true | _ => false end.

(** [column = ?] *)
Definition sql_eq (v param : option ustr) : option bool :=
  match v, param with
  | Some a, Some b => Some (bool_decide (a = b))
  | _, _ => None
  end.

(** [f"%{keyword}%"] *)
Definition search_pattern (keyword : ustr) : ustr :=
  percent :: keyword ++ [percent].

Definition where_like (keyword : ustr) (r : ProductRow) : bool :=
  let p := search_pattern keyword in
  sql_true (sql_or (sql_or (sql_like p (name r)) (sql_like p (size_class r)))
                   (sql_like p (type_class r))).

(** The rows of the first query of [fuzzy_search_product]. *)
Definition direct_matches (products : list ProductRow) (keyword : ustr)
    : list ProductRow :=
  filter (fun r => where_like keyword r = true) products.

(** A search result: [(matched_name, category_code)]. *)
Definition match_result (r : ProductRow) : option ustr * option ustr :=
  (name r, code r).

(** *** The vocabulary of the claims about the exact stage *)

(** The keyword occurs in the field as it is written. *)
Definition field_contains (keyword : ustr) (v : option ustr) : bool :=
  match v with Some s => Text.contains keyword s | None => false end.

Definition record_contains (keyword : ustr) (r : ProductRow) : bool :=
  field_contains keyword (name r) || field_contains keyword (size_class r)
  || field_contains keyword (type_class r).

(** The keyword occurs in the text up to the case of ASCII letters. *)
Fixpoint prefixb_nocase (k s : ustr) : bool :=
  match k, s with
  | [], _ => true
  | _ :: _, [] => false
  | a :: k', b :: s' => like_char_eq a b && prefixb_nocase k' s'
  end.

Fixpoint contains_nocase (k s : ustr) : bool :=
  prefixb_nocase k s
  || match s with [] => false | _ :: s' => contains_nocase k s' end.

Definition field_contains_nocase (keyword : ustr) (v : option ustr) : bool :=
  match v with Some s => contains_nocase keyword s | None => false end.

Definition record_contains_nocase (keyword : ustr) (r : ProductRow) : bool :=
  field_contains_nocase keyword (name r)
  || field_contains_nocase keyword (size_class r)
  || field_contains_nocase keyword (type_class r).

(** The characters LIKE gives a meaning to. *)
Definition is_meta (c : N) : bool := ((c =? percent) || (c =? underscore))%N.

(** The keyword with the letter a in place of every [%] and [_]. *)
Definition literalize (keyword : ustr) : ustr :=
  map (fun c => if is_meta c then 0x61%N else c) keyword.

(** A record has a text in one of the three searched fields. *)
Definition searchable (r : ProductRow) : Prop :=
  name r <> None \/ size_class r <> None \/ type_class r <> None.

(** *** fuzzywuzzy's [process.extract] *)

(** Insertion into a list sorted by descending key, before the elements
    whose key is not larger: earlier elements stay first among equals. *)
Fixpoint insert_desc {A} (key : A -> Z) (x : A) (l : list A) : list A :=
  match l with
  | [] => [x]
  | y :: l' => if (key x <? key y)%Z then y :: insert_desc key x l' else x :: l
  end.

(** [sorted(l, key=key, reverse=True)] *)
Definition sorted_desc {A} (key : A -> Z) (l : list A) : list A :=
  foldr (insert_desc key) [] l.

(** [heapq.nlargest(n, l, key=key)] *)
Definition nlargest {A} (n : nat) (key : A -> Z) (l : list A) : list A :=
  take n (sorted_desc key l).

(** The order of a stable descending sort: a larger key first, and among
    equal keys the element that [before] places first. *)
Definition stable_order {A} (key : A -> Z) (before : A -> A -> Prop)
    (a b : A) : Prop :=
  (key b < key a)%Z \/ (key a = key b /\ before a b).

Section Search.

(** [score keyword choice]: what the scorer [fuzz.token_set_ratio] gives
    for the processed keyword and the processed choice. *)
Variable score : ustr -> option ustr -> Z.

(** [process.extractWithoutOrder] with its default [score_cutoff=0]. *)
Definition extractWithoutOrder (keyword : ustr) (choices : list (option ustr))
    : list (option ustr * Z) :=
  filter (fun p => (0 <=? p.2)%Z = true)
         (map (fun c => (c, score keyword c)) choices).

(** [process.extract(keyword, choices, scorer=fuzz.token_set_ratio,
    limit=limit)] *)
Definition extract (keyword : ustr) (choices : list (option ustr))
    (limit : nat) : list (option ustr * Z) :=
  nlargest limit snd (extractWithoutOrder keyword choices).

(** [SELECT "功能類別(前5碼)" FROM products WHERE 名稱 = ?] followed by
    [fetchone()]: the code of the first row of that name, if any. *)
Definition fetch_code (products : list ProductRow) (matched_name : option ustr)
    : option (option ustr) :=
  code <$> head (filter (fun r => sql_true (sql_eq (name r) matched_name) = true)
                        products).

(** The loop over the fuzzy matches. *)
Definition resolve (products : list ProductRow) (threshold : Z)
    (matches : list (option ustr * Z)) : list (option ustr * option ustr) :=
  flat_map
    (fun m =>
       if (threshold <=? m.2)%Z then
         match fetch_code products m.1 with
         | Some ref_code => [(m.1, ref_code)]
         | None => []
         end
       else [])
    matches.

(** *** The vocabulary of the claims about the fuzzy stage *)

(** The elements of a list with their positions. *)
Definition indexed {A} (l : list A) : list (nat * A) := imap pair l.

(** [a] comes before [b] in the ranking: a larger score, or the same score
    and an earlier position among the candidates. *)
Definition ranks_before (keyword : ustr) : relation (nat * option ustr) :=
  stable_order (fun p => score keyword p.2) (fun a b => a.1 < b.1).

(** The candidates the scorer accepts, with their positions. *)
Definition scored_candidates (keyword : ustr) (choices : list (option ustr))
    : list (nat * option ustr) :=
  filter (fun p => (0 <= score keyword p.2)%Z) (indexed choices).

(** A candidate as [process.extract] returns it: the name and its score. *)
Definition scored (keyword : ustr) (p : nat * option ustr)
    : option ustr * Z :=
  (p.2, score keyword p.2).

(** The candidates the loop keeps: at least the threshold, and a product
    of that name exists. *)
Definition kept (products : list ProductRow) (keyword : ustr) (threshold : Z)
    (cands : list (nat * option ustr)) : list (nat * option ustr) :=
  filter (fun p => (threshold <= score keyword p.2)%Z
                   /\ is_Some (fetch_code products p.2)) cands.

(** The fuzzy stage: the part of [fuzzy_search_product] after the direct
    matches. *)
Definition fuzzy_matches (products : list ProductRow) (keyword : ustr)
    (threshold : Z) : list (option ustr * option ustr) :=
  resolve products threshold (extract keyword (map name products) 30).

(** [fuzzy_search_product(conn, keyword, threshold)], where [products] is
    the content of the table. *)
Definition fuzzy_search_product (products : list ProductRow) (keyword : ustr)
    (threshold : Z) : list (option ustr * option ustr) :=
  match direct_matches products keyword with
  | [] => fuzzy_matches products keyword threshold
  | ms => map match_result ms
  end.

Definition default_threshold : Z := 40.

(** *** Expansion *)

Definition cell_of_sql (v : option ustr) : Cell :=
  match v with Some s => Str s | None => NaN end.

Definition row_of_product (r : ProductRow) : gmap string Cell :=
  list_to_map [("功能類別(前5碼)", cell_of_sql (code r));
               ("名稱", cell_of_sql (name r));
               ("大小類", cell_of_sql (size_class r));
               ("類別", cell_of_sql (type_class r))].

(** [query_products_by_function(conn, ref_code)] *)
Definition query_products_by_function (products : list ProductRow)
    (ref_code : option ustr) : DataFrame :=
  {| columns := product_columns;
     rows := map row_of_product
               (filter (fun r => sql_true (sql_eq (code r) ref_code) = true)
                       products) |}.

(** [df[c] = v] for a scalar [v]. *)
Definition assign_scalar (c : string) (v : Cell) (df : DataFrame) : DataFrame :=
  {| columns := if bool_decide (c ∈ columns df) then columns df
                else columns df ++ [c];
     rows := map (fun r => <[c := v]> r) (rows df) |}.

(** [pd.concat([a, b])] *)
Definition concat (a b : DataFrame) : DataFrame :=
  {| columns := columns a ++ filter (fun c => c ∉ columns a) (columns b);
     rows := rows a ++ rows b |}.

(** The loop of [search_products] over the matched products, started from
    [all_results_df]. *)
Definition expand (products : list ProductRow) (keyword : ustr)
    (matched_products : list (option ustr * option ustr))
    (all_results_df : DataFrame) : DataFrame :=
  foldl
    (fun all_results_df m =>
       let df_results := query_products_by_function products m.2 in
       let df_results := assign_scalar "搜尋關鍵字" (Str keyword) df_results in
       let df_results := assign_scalar "參考產品" (cell_of_sql m.1) df_results in
       concat all_results_df df_results)
    all_results_df matched_products.

Variable os_error_str : ExnClass -> string -> string.
Variable path_join : string -> string -> string.
Variable path_dirname : string -> string.

(** [load_data_to_db(csv_file, db_file)]: the content of the table
    [products] once it has been emptied and refilled from the CSV file. *)
Definition load_data_to_db (csv_file : string) (fs : gmap string FileEntry)
    : Outcome (list ProductRow) :=
  df ← read_csv os_error_str csv_file fs;
  to_sql df.

(** [search_products(keyword, db_file, csv_file)]: the file system it
    leaves, or the exception it raises. *)
Definition search_products (keyword : ustr) (csv_file : string)
    (fs : gmap string FileEntry) : Outcome (gmap string FileEntry) :=
  products ← load_data_to_db csv_file fs;
  let matched_products :=
    fuzzy_search_product products keyword default_threshold in
  match matched_products with
  | [] => Return fs
  | _ :: _ =>
      let all_results_df := expand products keyword matched_products empty_frame in
      let output_file := path_join (path_dirname csv_file) "IndexSQL_find.csv" in
      to_csv os_error_str output_file all_results_df fs
  end.

End Search.

End IndexSQL.

(** ** APP_UI_SQLver.py *)

Module App.

Section Worker.

Variable nfkc : ustr -> ustr.
Variable lower : ustr -> ustr.
Variable score : ustr -> option ustr -> Z.
Variable os_error_str : ExnClass -> string -> string.
Variable path_join : string -> string -> string.
Variable path_dirname : string -> string.

(** [Worker.run]: the three values it emits with [finished] (the table,
    the status message and the error message) and the file system it
    leaves. *)
Definition run (keyword : ustr) (base_dir : string)
    (fs : gmap string FileEntry)
    : (DataFrame * string * string) * gmap string FileEntry :=
  let data_dir := path_join base_dir "data" in
  let csv_indexcode := path_join data_dir "IndexCode.csv" in
  match IndexSQL.search_products score os_error_str path_join path_dirname
          keyword csv_indexcode fs with
  | Raise e => ((empty_frame, "", exn_str e), fs)
  | Return fs1 =>
      match History.HistoryDataSearch nfkc lower os_error_str path_join
              base_dir (Some data_dir)
              (Some (path_join data_dir "format_clean.csv"))
              (Some (path_join data_dir "IndexSQL_find.csv"))
              (Some (path_join data_dir "價量調查品項108-112.csv"))
              None fs1 with
      | ((None, msg), fs2) => ((empty_frame, "", msg), fs2)
      | ((Some df, msg), fs2) => ((df, msg, ""), fs2)
      end
  end.

End Worker.

End App.

(** ** The schema of the expanded table *)

(** The labels of the table [search_products] writes. *)
Definition expansion_columns : list string :=
  ["功能類別(前5碼)"; "名稱"; "大小類"; "類別"; "搜尋關鍵字"; "參考產品"].

(** The table one match adds to [all_results_df]. *)
Definition match_frame (products : list IndexSQL.ProductRow) (keyword : ustr)
    (m : option ustr * option ustr) : DataFrame :=
  IndexSQL.assign_scalar "參考產品" (IndexSQL.cell_of_sql m.1)
    (IndexSQL.assign_scalar "搜尋關鍵字" (Str keyword)
       (IndexSQL.query_products_by_function products m.2)).

(** ** Labels

    The vocabulary of the properties of the output schema. *)

Module Labels.

(** The text ends with the two characters [a] and [b]. *)
Fixpoint ends_with2 (a b : ascii) (s : string) : bool :=
  match s with
  | EmptyString => false
  | String c t =>
      match t with
      | EmptyString => false
      | String d EmptyString => bool_decide (c = a) && bool_decide (d = b)
      | String _ (String _ _) => ends_with2 a b t
      end
  end.

(** A label that carries neither of the suffixes of a merge. *)
Definition plain (c : string) : bool :=
  negb (ends_with2 "_" "x" c) && negb (ends_with2 "_" "y" c).

End Labels.

(** ** Sample data

    Small tables on which the programs are run: the scenarios of the
    specification (a classification code AB123 present in the price table
    and in the expanded table, the category "Foo" valid and the category
    "Bar" not, a price row without matching code). *)

Module Sample.
Import History.

Definition nfkc := UnicodeFragment.nfkc_fragment.
Definition lower := UnicodeFragment.lower_fragment.

(** A row from the list of its labelled cells. *)
Definition row (l : list (string * Cell)) : gmap string Cell := list_to_map l.

Definition df_format : DataFrame :=
  {| columns := ["核價類別"];
     rows := [row [("核價類別", Str (u "Foo"))];
              row [("核價類別", Str (u " FOO "))];
              row [("核價類別", Str (u "Baz"))]] |}.

Definition index_columns : list string :=
  ["功能類別(前5碼)"; "名稱"; "大小類"; "類別"; "搜尋關鍵字"; "參考產品"].

Definition index_row (code name : string) : gmap string Cell :=
  row [("功能類別(前5碼)", Str (u code)); ("名稱", Str (u name));
       ("大小類", Str (u "L")); ("類別", Str (u "T"));
       ("搜尋關鍵字", Str (u "scalpel")); ("參考產品", Str (u "Scalpel Pro"))].

(** An expanded table in which every code occurs once. *)
Definition df_index : DataFrame :=
  {| columns := index_columns;
     rows := [index_row "AB123" "Scalpel Pro"; index_row "CD456" "Forceps"] |}.

(** An expanded table with two products of the code AB123. *)
Definition df_index_siblings : DataFrame :=
  {| columns := index_columns;
     rows := [index_row "AB123" "Scalpel Pro"; index_row "AB123" "Scalpel Mini"] |}.

Definition price_row (year : Z) (code5 category : string) : gmap string Cell :=
  row [("年份", Int year); ("特材代碼", Str (u code5 ++ u "0001"));
       ("特材代碼前五碼", Str (u code5)); ("核價類別名稱", Str (u category))].

Definition df_price : DataFrame :=
  {| columns := ["年份"; "特材代碼"; "特材代碼前五碼"; "核價類別名稱"];
     rows := [price_row 108 "AB123" "Foo"; price_row 109 "AB123" "Bar";
              price_row 110 "ZZ999" "Foo"] |}.

(** A price table that already has a column named like the indicator. *)
Definition df_price_merge : DataFrame :=
  {| columns := ["特材代碼前五碼"; "核價類別名稱"; "_merge"];
     rows := [row [("特材代碼前五碼", Str (u "AB123"));
                   ("核價類別名稱", Str (u "Foo")); ("_merge", Str (u "both"))]] |}.

(** A format table without its required column. *)
Definition df_format_unnamed : DataFrame :=
  {| columns := ["類別"]; rows := [row [("類別", Str (u "Foo"))]] |}.

(** The classification data set. *)
Definition df_products : DataFrame :=
  {| columns := IndexSQL.product_columns;
     rows := [row [("功能類別(前5碼)", Str (u "AB123")); ("名稱", Str (u "Scalpel Pro"));
                   ("大小類", Str (u "L")); ("類別", Str (u "T"))];
              row [("功能類別(前5碼)", Str (u "CD456")); ("名稱", Str (u "Forceps"));
                   ("大小類", Str (u "S")); ("類別", Str (u "T"))];
              row [("功能類別(前5碼)", Str (u "AB123")); ("名稱", Str (u "Scalpel Mini"));
                   ("大小類", Str (u "S")); ("類別", Str (u "T"))]] |}.

Definition products : list IndexSQL.ProductRow :=
  map IndexSQL.product_of_row (rows df_products).

(** A scorer given by a table; it stands for [fuzz.token_set_ratio] on the
    sample, without claiming its values. *)
Definition score (keyword : ustr) (choice : option ustr) : Z :=
  if bool_decide (keyword = u "scalpl") then
    if bool_decide (choice = Some (u "Scalpel Pro")) then 85
    else if bool_decide (choice = Some (u "Scalpel Mini")) then 85
    else if bool_decide (choice = Some (u "Forceps")) then 20
    else 0
  else 0.

(** [os.path.join] and [os.path.dirname] on relative POSIX paths. *)
Definition path_join (d f : string) : string :=
  if bool_decide (d = "") then f else d +:+ "/" +:+ f.

Fixpoint dir_of (s : string) : option string :=
  match s with
  | EmptyString => None
  | String c t =>
      match dir_of t with
      | Some d => Some (String c d)
      | None => if bool_decide (c = "/"%char) then Some "" else None
      end
  end.

Definition path_dirname (s : string) : string := default "" (dir_of s).

(** The text of an [OSError]. *)
Definition os_error_str (c : ExnClass) (path : string) : string :=
  match c with
  | FileNotFoundError => "[Errno 2] No such file or directory: "
  | IsADirectoryError => "[Errno 21] Is a directory: "
  | _ => ""
  end +:+ py_repr_label path.

(** File systems. *)
Definition fs_inputs : gmap string FileEntry :=
  list_to_map [("data/format_clean.csv", CsvFile df_format);
               ("data/IndexSQL_find.csv", CsvFile df_index);
               ("data/價量調查品項108-112_FINAL.csv", CsvFile df_price)].

Definition fs_empty_format : gmap string FileEntry :=
  <["data/format_clean.csv" := EmptyFile]> fs_inputs.

Definition fs_unnamed_format : gmap string FileEntry :=
  <["data/format_clean.csv" := CsvFile df_format_unnamed]> fs_inputs.

Definition fs_no_price : gmap string FileEntry :=
  delete "data/價量調查品項108-112_FINAL.csv" fs_inputs.

Definition fs_classification : gmap string FileEntry :=
  list_to_map [("data/IndexCode.csv", CsvFile df_products)].

(** The classification data and the result of an earlier search. *)
Definition fs_earlier_search : gmap string FileEntry :=
  <["data/IndexSQL_find.csv" := CsvFile df_index]> fs_classification.

(** The files of a project directory after an earlier search: the
    classification data, the format table, the expanded table of that
    search and the price table under the name the user interface reads. *)
Definition fs_project : gmap string FileEntry :=
  list_to_map [("data/IndexCode.csv", CsvFile df_products);
               ("data/format_clean.csv", CsvFile df_format);
               ("data/IndexSQL_find.csv", CsvFile df_index);
               ("data/價量調查品項108-112.csv", CsvFile df_price)].

Definition HistoryDataSearch :=
  History.HistoryDataSearch nfkc lower os_error_str path_join.

Definition run :=
  App.run nfkc lower score os_error_str path_join path_dirname.

Definition search_products :=
  IndexSQL.search_products score os_error_str path_join path_dirname.

End Sample.

(** * Properties *)

(** Turns boolean comparisons of code points in [H] into propositions. *)
Ltac prop_of_bool H :=
  repeat first
    [ rewrite orb_true_iff in H | rewrite andb_true_iff in H
    | rewrite N.leb_le in H | rewrite N.ltb_lt in H | rewrite N.eqb_eq in H ].

(** ** Whitespace normalisation *)

Module TextFacts.
Import Text.

Lemma isspace_space : isspace 0x20%N = true.
Proof. reflexivity. Qed.

Lemma starts_ok_lstrip s : starts_ok (lstrip s) = true.
Proof.
  induction s as [|c t IH]; simpl; [done|].
  destruct (isspace c) eqn:E; [done|]. simpl. by rewrite E.
Qed.

Lemma lstrip_id s : starts_ok s = true -> lstrip s = s.
Proof.
  destruct s as [|c t]; simpl; [done|].
  destruct (isspace c); [discriminate|done].
Qed.

Lemma ends_ok_snoc s c : ends_ok (s ++ [c]) = negb (isspace c).
Proof.
  induction s as [|d t IH]; simpl; [done|].
  destruct (t ++ [c]) eqn:E; [by destruct t|]. exact IH.
Qed.

Lemma ends_ok_rev s : starts_ok s = true -> ends_ok (rev s) = true.
Proof.
  destruct s as [|c t]; simpl; [done|]. intros H. by rewrite ends_ok_snoc.
Qed.

Lemma starts_ok_rev s : ends_ok s = true -> starts_ok (rev s) = true.
Proof.
  induction s as [|c t IH]; simpl; [done|].
  destruct t as [|d t'].
  - simpl. done.
  - intros H. specialize (IH H). simpl in *.
    destruct (rev t' ++ [d]) eqn:E; [by destruct (rev t')|]. done.
Qed.

Lemma ends_ok_rstrip s : ends_ok (rstrip s) = true.
Proof. unfold rstrip. apply ends_ok_rev, starts_ok_lstrip. Qed.

Lemma rstrip_id s : ends_ok s = true -> rstrip s = s.
Proof.
  intros H. unfold rstrip. rewrite lstrip_id by by apply starts_ok_rev.
  apply rev_involutive.
Qed.

Lemma lstrip_snoc s c :
  isspace c = false -> exists s', lstrip (s ++ [c]) = s' ++ [c].
Proof.
  intros Hc. induction s as [|d t [s' IH]]; simpl.
  - rewrite Hc. by exists [].
  - destruct (isspace d); [by exists s'|]. by exists (d :: t).
Qed.

Lemma starts_ok_rstrip s : starts_ok s = true -> starts_ok (rstrip s) = true.
Proof.
  destruct s as [|c t]; [done|]. simpl. intros Hc.
  apply negb_true_iff in Hc. unfold rstrip. simpl.
  destruct (lstrip_snoc (rev t) c Hc) as [s' ->].
  rewrite rev_app_distr. simpl. by rewrite Hc.
Qed.

Lemma starts_ok_strip s : starts_ok (strip s) = true.
Proof. apply starts_ok_rstrip, starts_ok_lstrip. Qed.

Lemma ends_ok_strip s : ends_ok (strip s) = true.
Proof. apply ends_ok_rstrip. Qed.

Lemma strip_id s : starts_ok s = true -> ends_ok s = true -> strip s = s.
Proof. intros H1 H2. unfold strip. by rewrite lstrip_id, rstrip_id. Qed.

Lemma sub_ws_true_start s : starts_ok s = true -> sub_ws true s = sub_ws false s.
Proof.
  destruct s as [|c t]; simpl; [done|].
  destruct (isspace c); [discriminate|done].
Qed.

Lemma canon_sub_ws_id s : canon s = true -> sub_ws false s = s.
Proof.
  induction s as [|c t IH]; simpl; [done|].
  destruct (isspace c).
  - rewrite !andb_true_iff. intros [[Hc Ht] Hcanon].
    apply N.eqb_eq in Hc. subst c.
    destruct t as [|d t']; [discriminate|].
    rewrite sub_ws_true_start by done. by rewrite IH.
  - intros H. by rewrite IH.
Qed.

Lemma canon_ends_ok s : canon s = true -> ends_ok s = true.
Proof.
  induction s as [|c t IH]; simpl; [done|].
  destruct (isspace c) eqn:E.
  - rewrite !andb_true_iff. intros [[_ Ht] Hcanon].
    destruct t as [|d t']; [discriminate|]. by apply IH.
  - intros H. destruct t; [done|]. by apply IH.
Qed.

Lemma sub_ws_true_head s :
  ends_ok s = true -> s <> [] ->
  exists d r, sub_ws true s = d :: r /\ isspace d = false.
Proof.
  induction s as [|c t IH]; [done|]. intros He _. simpl.
  destruct (isspace c) eqn:E.
  - destruct t as [|d t']; [simpl in He; by rewrite E in He|].
    apply IH; done.
  - by eexists _, _.
Qed.

Lemma canon_sub_ws s b : ends_ok s = true -> canon (sub_ws b s) = true.
Proof.
  revert b. induction s as [|c t IH]; intros b He; simpl; [done|].
  assert (Ht : isspace c = true -> ends_ok t = true /\ t <> []).
  { intros E. destruct t; simpl in He; [by rewrite E in He|done]. }
  destruct (isspace c) eqn:E.
  - destruct (Ht eq_refl) as [He' Hne]. destruct b; [by apply IH|].
    destruct (sub_ws_true_head t He' Hne) as (d & r & Hd & Hsp).
    pose proof (IH true He') as Hcanon. rewrite Hd in *.
    simpl. simpl in Hcanon. rewrite Hsp in *. done.
  - simpl. rewrite E. apply IH. destruct t; done.
Qed.

Lemma starts_ok_sub_ws s :
  starts_ok s = true -> starts_ok (sub_ws false s) = true.
Proof.
  destruct s as [|c t]; simpl; [done|].
  destruct (isspace c) eqn:E; [discriminate|]. intros _. simpl. by rewrite E.
Qed.

(** Stripping and collapsing whitespace gives a whitespace-normal text. *)
Lemma ws_normal_normalised z : ws_normal (re_sub_ws (strip z)).
Proof.
  unfold ws_normal, re_sub_ws.
  pose proof (starts_ok_strip z) as Hs. pose proof (ends_ok_strip z) as He.
  pose proof (canon_sub_ws (strip z) false He) as Hc.
  rewrite strip_id.
  - by apply canon_sub_ws_id.
  - by apply starts_ok_sub_ws.
  - by apply canon_ends_ok.
Qed.

(** A text without whitespace is whitespace-normal. *)
Lemma canon_no_space s : Forall (fun c => isspace c = false) s -> canon s = true.
Proof. induction 1 as [|c t Hc _ IH]; simpl; [done|]. by rewrite Hc. Qed.

Lemma ws_normal_no_space s :
  Forall (fun c => isspace c = false) s -> strip s = s /\ re_sub_ws s = s.
Proof.
  intros H. pose proof (canon_no_space s H) as Hc. split.
  - apply strip_id; [|by apply canon_ends_ok].
    destruct H as [|c t Hx _]; simpl; [done|]. by rewrite Hx.
  - by apply canon_sub_ws_id.
Qed.

(** Collapsing commutes with a character map that keeps U+0020 and the
    whitespace class. *)
Section MapChars.
Variable f : N -> N.
Hypothesis f_space : f 0x20%N = 0x20%N.
Hypothesis f_isspace : forall c, isspace (f c) = isspace c.

Lemma lstrip_map s : lstrip (map f s) = map f (lstrip s).
Proof.
  induction s as [|c t IH]; simpl; [done|].
  rewrite f_isspace. by destruct (isspace c).
Qed.

Lemma strip_map s : strip (map f s) = map f (strip s).
Proof.
  unfold strip, rstrip.
  by rewrite !lstrip_map, <- !map_rev, lstrip_map, <- map_rev.
Qed.

Lemma sub_ws_map b s : sub_ws b (map f s) = map f (sub_ws b s).
Proof.
  revert b. induction s as [|c t IH]; intros b; simpl; [done|].
  rewrite f_isspace.
  destruct (isspace c), b; simpl; by rewrite ?IH, ?f_space.
Qed.

Lemma ws_normal_map s : ws_normal s -> ws_normal (map f s).
Proof.
  unfold ws_normal, re_sub_ws. intros H.
  by rewrite strip_map, sub_ws_map, H.
Qed.

End MapChars.

End TextFacts.

(** ** The normalizer *)

Lemma numeric_text_uint (d : Decimal.uint) :
  numeric_text (u (NilEmpty.string_of_uint d)).
Proof. induction d; simpl; constructor; done. Qed.

Lemma numeric_text_py_str_int z : numeric_text (u (py_str_int z)).
Proof.
  unfold py_str_int, NilZero.string_of_int, NilZero.string_of_uint.
  destruct (Z.to_int z) as [d|d].
  - destruct d; try apply (numeric_text_uint (_ _)). by constructor.
  - constructor; [done|].
    destruct d; try apply (numeric_text_uint (_ _)). by constructor.
Qed.

Lemma py_str_int_nonempty z : u (py_str_int z) <> [].
Proof.
  unfold py_str_int, NilZero.string_of_int, NilZero.string_of_uint.
  destruct (Z.to_int z) as [d|d]; by destruct d.
Qed.

Lemma numeric_char_no_space c : numeric_char c = true -> Text.isspace c = false.
Proof.
  unfold numeric_char, Text.isspace. intros H.
  apply not_true_iff_false. intros H'.
  prop_of_bool H. prop_of_bool H'. lia.
Qed.

Lemma numeric_text_no_space s :
  numeric_text s -> Forall (fun c => Text.isspace c = false) s.
Proof.
  intros H. eapply Forall_impl; [exact H|]. apply numeric_char_no_space.
Qed.

Module FragmentFacts.
Import UnicodeFragment.

Lemma ascii_lower_idem c : ascii_lower (ascii_lower c) = ascii_lower c.
Proof.
  unfold ascii_lower.
  destruct ((0x41 <=? c) && (c <=? 0x5A))%N eqn:E; [|by rewrite E].
  apply andb_true_iff in E as [H1%N.leb_le H2%N.leb_le].
  destruct (0x41 <=? c + 0x20)%N eqn:E1, (c + 0x20 <=? 0x5A)%N eqn:E2;
    simpl; try done.
  apply N.leb_le in E2. lia.
Qed.

Lemma ascii_lower_space : ascii_lower 0x20%N = 0x20%N.
Proof. reflexivity. Qed.

Lemma ascii_lower_isspace c : Text.isspace (ascii_lower c) = Text.isspace c.
Proof.
  unfold ascii_lower.
  destruct ((0x41 <=? c) && (c <=? 0x5A))%N eqn:E; [|done].
  apply andb_true_iff in E as [H1%N.leb_le H2%N.leb_le].
  assert (Hf : forall d, (0x41 <= d <= 0x7A)%N -> Text.isspace d = false).
  { intros d Hd. unfold Text.isspace. apply not_true_iff_false. intros H'.
    prop_of_bool H'. lia. }
  rewrite !Hf; [done| lia | lia].
Qed.

Lemma lower_fragment_nil : lower_fragment [] = [].
Proof. reflexivity. Qed.

Lemma lower_fragment_idem s : lower_fragment (lower_fragment s) = lower_fragment s.
Proof.
  unfold lower_fragment. rewrite map_map. apply map_ext. apply ascii_lower_idem.
Qed.

Lemma lower_fragment_ws_normal s :
  Text.ws_normal s -> Text.ws_normal (lower_fragment s).
Proof.
  apply TextFacts.ws_normal_map;
    [apply ascii_lower_space | apply ascii_lower_isspace].
Qed.

Lemma lower_fragment_numeric s : numeric_text s -> lower_fragment s = s.
Proof.
  unfold lower_fragment. induction 1 as [|c t Hc _ IH]; simpl; [done|].
  rewrite IH. f_equal. unfold ascii_lower, numeric_char in *.
  destruct ((0x41 <=? c) && (c <=? 0x5A))%N eqn:E; [|done].
  prop_of_bool Hc. prop_of_bool E. lia.
Qed.

Lemma compat_numeric c : numeric_char c = true -> compat c = [c].
Proof.
  unfold compat, numeric_char. intros Hc.
  prop_of_bool Hc.
  destruct (0xFF01 <=? c)%N eqn:E1; [apply N.leb_le in E1; lia|]. simpl.
  destruct (c =? 0x3000)%N eqn:E2; [apply N.eqb_eq in E2; lia|].
  destruct (c =? 0xA0)%N eqn:E3; [apply N.eqb_eq in E3; lia|].
  destruct (c =? 0x1F0)%N eqn:E4; [apply N.eqb_eq in E4; lia|]. done.
Qed.

Lemma compose_numeric s : numeric_text s -> compose s = s.
Proof.
  induction 1 as [|c t Hc _ IH]; [done|].
  destruct t as [|d t']; [done|].
  change (compose (c :: d :: t')) with
    (if ((c =? 0x6A) && (d =? 0x30C))%N then 0x1F0%N :: compose t'
     else c :: compose (d :: t')).
  destruct (c =? 0x6A)%N eqn:E.
  - apply N.eqb_eq in E. subst c. discriminate.
  - simpl andb. cbv iota. by rewrite IH.
Qed.

Lemma nfkc_fragment_numeric s : numeric_text s -> nfkc_fragment s = s.
Proof.
  intros H. unfold nfkc_fragment.
  assert (flat_map compat s = s) as ->; [|by apply compose_numeric].
  induction H as [|c t Hc _ IH]; simpl; [done|].
  by rewrite compat_numeric, IH.
Qed.

End FragmentFacts.

Section NormalizerFacts.

Variable nfkc : ustr -> ustr.
Variable lower : ustr -> ustr.

Section Idempotence.

(** What the proof uses of [str.lower]: it maps the empty text to itself,
    lower-casing twice is lower-casing once, and it keeps a text in
    whitespace-normal form (it neither creates nor removes whitespace). *)
Hypothesis lower_nil : lower [] = [].
Hypothesis lower_idem : forall s, lower (lower s) = lower s.
Hypothesis lower_ws_normal : forall s, Text.ws_normal s -> Text.ws_normal (lower s).

(** C5 (as amended): normalising twice gives the same text as normalising
    once for every input whose normal form NFKC leaves unchanged.  (The
    lower-casing step comes after NFKC and can produce a text that NFKC
    would compose further.) *)
Theorem clean_str_idempotent_on_stable (x : Cell) :
  nfkc (clean_str nfkc lower x) = clean_str nfkc lower x ->
  clean_str nfkc lower (Str (clean_str nfkc lower x)) = clean_str nfkc lower x.
Proof.
  intros Hstable.
  assert (Hnorm : Text.ws_normal (clean_str nfkc lower x)).
  { unfold clean_str. destruct (isna x); [done|].
    apply lower_ws_normal, TextFacts.ws_normal_normalised. }
  unfold clean_str at 1. simpl. rewrite Hstable.
  unfold Text.ws_normal in Hnorm. rewrite Hnorm.
  unfold clean_str. destruct (isna x); [done|]. apply lower_idem.
Qed.

End Idempotence.

Section NonString.

Hypothesis nfkc_numeric : forall s, numeric_text s -> nfkc s = s.
Hypothesis lower_numeric : forall s, numeric_text s -> lower s = s.


End NonString.

End NormalizerFacts.

(** C5: the text "J" followed by U+030C (combining caron) is normalised to
    "j" followed by U+030C, which is normalised to U+01F0. *)
Lemma clean_str_not_idempotent :
  UnicodeFragment.normalize (Str [0x4A; 0x30C]%N) = [0x6A; 0x30C]%N
  /\ UnicodeFragment.normalize (Str (UnicodeFragment.normalize (Str [0x4A; 0x30C]%N)))
     = [0x1F0]%N
  /\ UnicodeFragment.normalize (Str (UnicodeFragment.normalize (Str [0x4A; 0x30C]%N)))
     <> UnicodeFragment.normalize (Str [0x4A; 0x30C]%N).
Proof. by vm_compute. Qed.

Lemma clean_str_idempotent_on_stable_witness :
  UnicodeFragment.nfkc_fragment (UnicodeFragment.normalize (Str (u "  Foo   Bar ")))
    = UnicodeFragment.normalize (Str (u "  Foo   Bar "))
  /\ UnicodeFragment.normalize
       (Str (UnicodeFragment.normalize (Str (u "  Foo   Bar "))))
     = UnicodeFragment.normalize (Str (u "  Foo   Bar ")).
Proof.
  split; [by vm_compute|].
  apply (clean_str_idempotent_on_stable
           UnicodeFragment.nfkc_fragment UnicodeFragment.lower_fragment
           FragmentFacts.lower_fragment_nil
           FragmentFacts.lower_fragment_idem
           FragmentFacts.lower_fragment_ws_normal).
  by vm_compute.
Defined.



(** ** Data frames *)

(** Decides a closed statement about labels. *)
Ltac decide_labels := apply (bool_decide_unpack _); vm_compute; exact I.

Module FrameFacts.
Import Frame.

Lemma get_insert_eq k v (r : gmap string Cell) : get k (<[k := v]> r) = v.
Proof. unfold get. by rewrite lookup_insert_eq. Qed.

Lemma get_insert_ne k k' v (r : gmap string Cell) :
  k <> k' -> get k' (<[k := v]> r) = get k' r.
Proof. intros H. unfold get. by rewrite lookup_insert_ne. Qed.

Lemma get_foldr_delete k cols (r : gmap string Cell) :
  k ∉ cols -> get k (foldr delete r cols) = get k r.
Proof.
  unfold get. induction cols as [|c cols IH]; simpl; [done|].
  intros [Hne Hnotin]%not_elem_of_cons.
  rewrite lookup_delete_ne by done. by apply IH.
Qed.

(** Reading a label in a dictionary built from a list of labels: the first
    label renamed to [k] decides. *)
Lemma lookup_labelled (f : string -> string) (g : string -> Cell) L rest k :
  k ∈ L -> f k = k -> (forall c, c ∈ L -> f c = k -> c = k) ->
  (list_to_map (map (fun c => (f c, g c)) L ++ rest) : gmap string Cell) !! k
  = Some (g k).
Proof.
  intros Hin Hk Hinj. induction L as [|c L IH]; [by apply elem_of_nil in Hin|].
  simpl. destruct (decide (c = k)) as [->|Hne].
  - rewrite Hk. apply lookup_insert_eq.
  - rewrite lookup_insert_ne.
    + apply IH.
      * apply elem_of_cons in Hin as [->|]; done.
      * intros c' Hc'. apply Hinj. by right.
    + intros Hf. apply Hne, Hinj; [by left|done].
Qed.

Lemma get_select k cols r :
  k ∈ cols ->
  get k (list_to_map (map (fun c => (c, get c r)) cols) : gmap string Cell)
  = get k r.
Proof.
  intros Hin. unfold get at 1.
  rewrite <- (app_nil_r (map _ cols)).
  by rewrite (lookup_labelled (fun c => c) (fun c => get c r)).
Qed.

(** A label of the left frame that the right frame lacks, and that no
    suffixed label equals, keeps its cell in a merged row. *)
Lemma get_merged_left L R l r k :
  k ∈ L -> k ∉ R -> (forall c, c ∈ R -> c +:+ "_x" <> k) ->
  get k (merged_row L R l r) = get k l.
Proof.
  intros HL HR Hsfx. unfold merged_row, get at 1.
  rewrite (lookup_labelled (rename (overlap L R) "_x") (fun c => get c l)).
  - done.
  - done.
  - unfold rename. rewrite bool_decide_eq_false_2; [done|].
    unfold overlap. rewrite list_elem_of_filter. tauto.
  - intros c _. unfold rename. case_bool_decide as Hov; [|done].
    unfold overlap in Hov. apply list_elem_of_filter in Hov as [Hc _].
    intros Heq. by destruct (Hsfx c Hc).
Qed.

Lemma filter_map {A B} (P : B -> Prop) `{!forall x, Decision (P x)}
    (f : A -> B) (l : list A) :
  filter P (map f l) = map f (filter (fun x => P (f x)) l).
Proof.
  induction l as [|x l IH]; simpl; [done|].
  rewrite !filter_cons. destruct (decide (P (f x))); simpl; by rewrite IH.
Qed.

Lemma filter_iff {A} (P Q : A -> Prop) `{!forall x, Decision (P x)}
    `{!forall x, Decision (Q x)} (l : list A) :
  (forall x, x ∈ l -> P x <-> Q x) -> filter P l = filter Q l.
Proof.
  induction l as [|x l IH]; intros Hext; [done|].
  rewrite !filter_cons.
  assert (Hx : P x <-> Q x) by (apply Hext; by left).
  rewrite IH by (intros y Hy; apply Hext; by right).
  destruct (decide (P x)), (decide (Q x)); tauto.
Qed.

Lemma map_fmap {A B} (f : A -> B) (l : list A) : map f l = f <$> l.
Proof. reflexivity. Qed.

Lemma elem_of_map {A B} (f : A -> B) (l : list A) (y : B) :
  y ∈ map f l <-> exists x, y = f x /\ x ∈ l.
Proof. rewrite map_fmap. apply list_elem_of_fmap. Qed.

Lemma filter_none {A} (P : A -> Prop) `{!forall x, Decision (P x)} (l : list A) :
  (forall x, x ∈ l -> ~ P x) -> filter P l = [].
Proof.
  induction l as [|x l IH]; intros Hall; [done|].
  rewrite filter_cons. destruct (decide (P x)) as [HP|_].
  - destruct (Hall x); [by left|done].
  - apply IH. intros y Hy. apply Hall. by right.
Qed.

(** At most one element of a list without two elements of the same key
    has a given key. *)
Lemma filter_key_unique {A B} `{EqDecision B} (g : A -> B) (a : B) (l : list A) :
  NoDup (map g l) -> length (filter (fun x => a = g x) l) <= 1.
Proof.
  induction l as [|x l IH]; simpl; [lia|].
  intros [Hnotin Hnodup]%NoDup_cons. specialize (IH Hnodup).
  rewrite filter_cons. destruct (decide (a = g x)) as [->|]; [|done].
  simpl. rewrite filter_none; [simpl; lia|].
  intros y Hy Heq. apply Hnotin. apply elem_of_map. by exists y.
Qed.

Lemma filter_key_nonempty {A B} `{EqDecision B} (g : A -> B) (a : B) (l : list A) :
  filter (fun x => a = g x) l <> [] <-> a ∈ map g l.
Proof.
  rewrite elem_of_map. split.
  - intros Hne. destruct (filter _ l) as [|x t] eqn:E; [done|].
    assert (Hx : x ∈ filter (fun x => a = g x) l) by (rewrite E; by left).
    apply list_elem_of_filter in Hx as [Hx1 Hx2]. by exists x.
  - intros (x & Hx1 & Hx2) Hnil.
    by apply (filter_nil_not_elem_of _ _ x Hnil).
Qed.

(** The number of rows of an inner merge. *)
Lemma nrows_merge_inner left right left_on right_on :
  nrows (merge_inner left right left_on right_on)
  = list_sum (map (fun l => length (matching left_on right_on right l))
                  (rows left)).
Proof.
  unfold nrows, merge_inner. simpl. rewrite length_flat_map.
  f_equal. apply map_ext. intros l. apply length_map.
Qed.

Lemma list_sum_le_length {A} (f : A -> nat) (l : list A) :
  (forall x, x ∈ l -> f x <= 1) -> list_sum (map f l) <= length l.
Proof.
  induction l as [|x l IH]; intros Hall; simpl; [lia|].
  assert (f x <= 1) by (apply Hall; by left).
  assert (list_sum (map f l) <= length l)
    by (apply IH; intros y Hy; apply Hall; by right).
  lia.
Qed.

(** [keep_first] keeps one copy of every row. *)
Lemma keep_first_elem_of l r : r ∈ keep_first l <-> r ∈ l.
Proof.
  induction l as [|x l IH]; simpl; [done|].
  rewrite !elem_of_cons, list_elem_of_filter, IH.
  destruct (decide (r = x)); tauto.
Qed.

Lemma keep_first_NoDup l : NoDup (keep_first l).
Proof.
  induction l as [|x l IH]; simpl; [constructor|].
  apply NoDup_cons. split.
  - rewrite list_elem_of_filter. tauto.
  - by apply NoDup_filter.
Qed.

End FrameFacts.

(** ** The reconciliation *)

(** Closes a goal [c +:+ sfx <> k] or [c <> k] for [c] in a list of
    literal labels. *)
Ltac labels_differ Hc :=
  repeat (apply elem_of_cons in Hc as [->|Hc]; [by vm_compute|]);
  by apply elem_of_nil in Hc.

Section ReconcileFacts.
Import Frame FrameFacts History.

Variable nfkc : ustr -> ustr.
Variable lower : ustr -> ustr.

Abbreviation clean_cell := (clean_cell nfkc lower).
Abbreviation stage1 := (stage1 nfkc lower).
Abbreviation stage2 := (stage2 nfkc lower).
Abbreviation df_format_valid := (df_format_valid nfkc lower).
Abbreviation reconcile := (reconcile nfkc lower).
Abbreviation normalized_category := (normalized_category nfkc lower).
Abbreviation valid_category_set := (valid_category_set nfkc lower).
Abbreviation category_valid := (category_valid nfkc lower).
Abbreviation price_row := (price_row nfkc lower).
Abbreviation index_row := (index_row nfkc lower).
Abbreviation stage1_row := (stage1_row nfkc lower).
Abbreviation valid_row := (valid_row nfkc lower).

(** *** Step 3 *)

Lemma missing_columns_nil cols df c :
  missing_columns cols df = [] -> c ∈ cols -> c ∈ columns df.
Proof.
  intros Hnil Hc. destruct (decide (c ∈ columns df)) as [|Hn]; [done|].
  by destruct (filter_nil_not_elem_of _ _ c Hnil Hn).
Qed.

Lemma validated_inv df_format df_index df_price :
  validated df_format df_index df_price ->
  missing_columns required_format df_format = []
  /\ missing_columns required_index df_index = []
  /\ missing_columns required_price df_price = [].
Proof.
  unfold validated. simpl.
  destruct (missing_columns required_format df_format); [|discriminate].
  destruct (missing_columns required_index df_index); [|discriminate].
  destruct (missing_columns required_price df_price); [|discriminate].
  done.
Qed.

(** *** Stage 1 *)

Lemma get_index_row_code i :
  get "功能類別(前5碼)" (index_row i) = get "功能類別(前5碼)" i.
Proof.
  unfold History.index_row, get at 1. simpl. by rewrite lookup_insert_eq.
Qed.

Lemma select_index_row i :
  (list_to_map
     (map (fun c => (c, get c (<["名稱_clean" := clean_cell (get "名稱" i)]> i)))
          ["功能類別(前5碼)"; "名稱_clean"]) : gmap string Cell)
  = index_row i.
Proof.
  unfold History.index_row. simpl.
  rewrite get_insert_eq, get_insert_ne; [done|by vm_compute].
Qed.

Lemma stage1_matching df_index p :
  matching "特材代碼前五碼" "功能類別(前5碼)"
    (select ["功能類別(前5碼)"; "名稱_clean"] (with_clean_index nfkc lower df_index))
    (price_row p)
  = map index_row (same_code df_index p).
Proof.
  unfold matching, same_code, select, with_clean_index, assign_apply.
  cbn [rows]. rewrite map_map.
  erewrite map_ext by (intros i; apply select_index_row).
  rewrite filter_map. f_equal. apply filter_iff. intros i _.
  unfold key_eq. rewrite bool_decide_eq_true, get_index_row_code.
  unfold History.price_row. by rewrite get_insert_ne by (by vm_compute).
Qed.

Lemma stage1_rows df_index df_price :
  rows (stage1 df_index df_price)
  = flat_map (fun p => map (stage1_row df_price p) (same_code df_index p))
             (rows df_price).
Proof.
  unfold History.stage1, merge_inner. cbn [rows columns].
  change (rows (with_clean_price nfkc lower df_price))
    with (map price_row (rows df_price)).
  change (columns (select ["功能類別(前5碼)"; "名稱_clean"]
                     (with_clean_index nfkc lower df_index)))
    with ["功能類別(前5碼)"; "名稱_clean"].
  induction (rows df_price) as [|p ps IH]; [done|].
  cbn [map flat_map]. rewrite IH. f_equal.
  by rewrite stage1_matching, map_map.
Qed.

(** The number of rows of the stage-1 result. *)
Lemma stage1_nrows df_index df_price :
  nrows (stage1 df_index df_price)
  = list_sum (map (fun p => length (same_code df_index p)) (rows df_price)).
Proof.
  unfold nrows. rewrite stage1_rows, length_flat_map.
  f_equal. apply map_ext. intros p. apply length_map.
Qed.

(** C3 (as amended): when no classification code occurs twice in the
    expanded table, the stage-1 inner join has at most as many rows as the
    price table. (In general every price row is repeated once for each row
    of the expanded table that carries its code: [stage1_nrows].) *)
Theorem stage1_at_most_price_rows df_index df_price :
  NoDup (column "功能類別(前5碼)" df_index) ->
  nrows (stage1 df_index df_price) <= nrows df_price.
Proof.
  intros Hcodes. rewrite stage1_nrows. apply list_sum_le_length.
  intros p _. unfold same_code. by apply filter_key_unique.
Qed.

Lemma clean_column_present df_price :
  "核價類別名稱_clean" ∈ columns (with_clean_price nfkc lower df_price).
Proof.
  unfold with_clean_price, assign_apply. cbn [columns].
  case_bool_decide; [done|]. apply elem_of_app. right. by left.
Qed.

Lemma category_column_present df_price :
  "核價類別名稱" ∈ columns df_price ->
  "核價類別名稱" ∈ columns (with_clean_price nfkc lower df_price).
Proof.
  intros H. unfold with_clean_price, assign_apply. cbn [columns].
  case_bool_decide; [done|]. apply elem_of_app. by left.
Qed.

Lemma stage1_row_clean df_price p i :
  get "核價類別名稱_clean" (stage1_row df_price p i)
  = clean_cell (get "核價類別名稱" p).
Proof.
  unfold History.stage1_row. rewrite get_merged_left.
  - apply get_insert_eq.
  - apply clean_column_present.
  - decide_labels.
  - intros c Hc. labels_differ Hc.
Qed.

Lemma stage1_row_category df_price p i :
  "核價類別名稱" ∈ columns df_price ->
  get "核價類別名稱" (stage1_row df_price p i) = get "核價類別名稱" p.
Proof.
  intros Hcol. unfold History.stage1_row. rewrite get_merged_left.
  - apply get_insert_ne. by vm_compute.
  - by apply category_column_present.
  - decide_labels.
  - intros c Hc. labels_differ Hc.
Qed.

Lemma stage1_elem df_index df_price r :
  r ∈ rows (stage1 df_index df_price) ->
  exists p i, p ∈ rows df_price /\ r = stage1_row df_price p i.
Proof.
  rewrite stage1_rows, list_elem_of_In, in_flat_map.
  intros (p & Hp & Hr). apply in_map_iff in Hr as (i & <- & _).
  exists p, i. by rewrite list_elem_of_In.
Qed.

(** In a row of the stage-1 result the helper column holds the normalized
    category name of that row. *)
Lemma stage1_key df_index df_price r :
  "核價類別名稱" ∈ columns df_price ->
  r ∈ rows (stage1 df_index df_price) ->
  get "核價類別名稱_clean" r = Str (normalized_category r).
Proof.
  intros Hcol (p & i & _ & ->)%stage1_elem.
  unfold History.normalized_category.
  by rewrite stage1_row_clean, stage1_row_category.
Qed.

(** *** Stage 2 *)

Lemma get_valid_row f :
  get "核價類別_clean" (valid_row f) = clean_cell (get "核價類別" f).
Proof. unfold History.valid_row, get. simpl. by rewrite lookup_insert_eq. Qed.

Lemma df_format_valid_rows df_format :
  rows (df_format_valid df_format) = keep_first (map valid_row (rows df_format)).
Proof.
  unfold History.df_format_valid, drop_duplicates, select, with_clean_format,
    assign_apply. cbn [rows]. rewrite map_map. f_equal.
  apply map_ext. intros f. simpl. by rewrite get_insert_eq.
Qed.

Lemma valid_matching df_format l :
  let ms := matching "核價類別名稱_clean" "核價類別_clean"
              (df_format_valid df_format) l in
  length ms <= 1
  /\ (ms <> [] <->
      get "核價類別名稱_clean" l
        ∈ map (fun f => clean_cell (get "核價類別" f)) (rows df_format)).
Proof.
  cbn zeta. unfold matching. rewrite df_format_valid_rows.
  set (a := get "核價類別名稱_clean" l).
  set (vs := keep_first (map valid_row (rows df_format))).
  assert (Hvs : forall r, r ∈ vs -> exists f, f ∈ rows df_format /\ r = valid_row f).
  { intros r Hr. apply keep_first_elem_of, elem_of_map in Hr as (f & -> & Hf).
    by exists f. }
  rewrite (filter_iff _ (fun r => a = get "核價類別_clean" r))
    by (intros r _; unfold key_eq; by rewrite bool_decide_eq_true).
  split.
  - apply filter_key_unique. rewrite map_fmap.
    apply NoDup_fmap_2_strong; [|apply keep_first_NoDup].
    intros x y (fx & _ & ->)%Hvs (fy & _ & ->)%Hvs.
    rewrite !get_valid_row. unfold History.valid_row. by intros ->.
  - rewrite filter_key_nonempty, !elem_of_map. split.
    + intros (r & -> & (f & Hf & ->)%Hvs). exists f. by rewrite get_valid_row.
    + intros (f & -> & Hf). exists (valid_row f). rewrite get_valid_row.
      split; [done|]. apply keep_first_elem_of, elem_of_map. by exists f.
Qed.

Lemma category_valid_iff df_format l :
  get "核價類別名稱_clean" l = Str (normalized_category l) ->
  get "核價類別名稱_clean" l
    ∈ map (fun f => clean_cell (get "核價類別" f)) (rows df_format)
  <-> category_valid df_format l = true.
Proof.
  intros ->. unfold History.category_valid, History.valid_category_set.
  rewrite bool_decide_eq_true, elem_of_list_to_set, !elem_of_map.
  unfold History.clean_cell. split.
  - intros (f & [= Heq] & Hf). by exists f.
  - intros (f & Heq & Hf). exists f. by rewrite Heq.
Qed.

(** Every row of the stage-1 result gives exactly one row of the stage-2
    result, and its indicator tells whether its normalized category name
    is a valid category. *)
Lemma left_rows_one df_format left l :
  get "核價類別名稱_clean" l = Str (normalized_category l) ->
  exists row,
    left_rows left (df_format_valid df_format)
      "核價類別名稱_clean" "核價類別_clean" l = [row]
    /\ get "_merge" row
       = if category_valid df_format l then indicator_both
         else indicator_left_only.
Proof.
  intros Hkey. unfold left_rows.
  destruct (valid_matching df_format l) as [Hlen Hne].
  rewrite (category_valid_iff df_format l Hkey) in Hne.
  destruct (matching _ _ _ l) as [|r [|r' ms]].
  - eexists. split; [done|]. rewrite get_insert_eq.
    destruct (category_valid df_format l); [|done].
    by destruct (proj2 Hne eq_refl).
  - eexists. split; [done|]. rewrite get_insert_eq.
    rewrite (proj1 Hne); done.
  - simpl in Hlen. lia.
Qed.

Lemma stage2_inv df_format df_index df_price result :
  stage2 df_format df_index df_price = Return result ->
  rows result
  = flat_map (left_rows (stage1 df_index df_price) (df_format_valid df_format)
                "核價類別名稱_clean" "核價類別_clean")
             (rows (stage1 df_index df_price)).
Proof.
  unfold History.stage2, merge_left_indicator.
  destruct (filter _ reserved_indicator_columns); [|discriminate].
  by intros [= <-].
Qed.

Lemma flat_map_singletons {A B} (f : A -> list B) (P : A -> B -> Prop) l :
  (forall x, x ∈ l -> exists y, f x = [y] /\ P x y) ->
  Forall2 P l (flat_map f l).
Proof.
  induction l as [|x l IH]; intros Hall; simpl; [constructor|].
  destruct (Hall x) as (y & -> & Hy); [by left|].
  simpl. constructor; [done|]. apply IH. intros z Hz. apply Hall. by right.
Qed.

Lemma stage2_rows df_format df_index df_price result :
  "核價類別名稱" ∈ columns df_price ->
  stage2 df_format df_index df_price = Return result ->
  Forall2 (fun l row =>
             get "_merge" row
             = if category_valid df_format l then indicator_both
               else indicator_left_only)
          (rows (stage1 df_index df_price)) (rows result).
Proof.
  intros Hcol ->%stage2_inv. apply flat_map_singletons.
  intros l Hl. apply left_rows_one. by apply (stage1_key df_index df_price).
Qed.

Lemma left_rows_single df_format left l :
  exists row,
    left_rows left (df_format_valid df_format)
      "核價類別名稱_clean" "核價類別_clean" l = [row].
Proof.
  unfold left_rows. destruct (valid_matching df_format l) as [Hlen _].
  destruct (matching _ _ _ l) as [|r [|r' ms]]; [by eexists..|].
  simpl in Hlen. lia.
Qed.

(** C9: the left join of stage 2 neither drops nor duplicates a row: its
    result, and the table with the change flag made from it, have exactly
    as many rows as the stage-1 result. *)
Theorem stage2_keeps_every_row df_format df_index df_price result :
  stage2 df_format df_index df_price = Return result ->
  nrows result = nrows (stage1 df_index df_price)
  /\ nrows (with_flag result) = nrows (stage1 df_index df_price).
Proof.
  intros Hres. assert (H : nrows result = nrows (stage1 df_index df_price)).
  { unfold nrows. rewrite (stage2_inv _ _ _ _ Hres). symmetry.
    apply (Forall2_length (fun _ _ => True)), flat_map_singletons.
    intros l _. destruct (left_rows_single df_format (stage1 df_index df_price) l)
      as [row Hrow].
    by exists row. }
  split; [done|]. rewrite <- H. unfold nrows, with_flag, assign_apply.
  cbn [rows]. apply length_map.
Qed.

(** *** Steps 8 and 9 *)

Lemma column_with_flag result :
  column "點數變更記錄" (with_flag result)
  = map flag_of_indicator (column "_merge" result).
Proof.
  unfold column, with_flag, assign_apply. cbn [rows]. rewrite !map_map.
  apply map_ext. intros r. apply get_insert_eq.
Qed.

Lemma flag_column_present result : "點數變更記錄" ∈ columns (with_flag result).
Proof.
  unfold with_flag, assign_apply. cbn [columns].
  case_bool_decide; [done|]. apply elem_of_app. right. by left.
Qed.

(** The projection keeps the flag column as it is. *)
Lemma column_project result :
  "點數變更記錄" ∈ columns result ->
  column "點數變更記錄" (project result) = column "點數變更記錄" result.
Proof.
  intros Hcol. unfold column, project, select, drop. cbn [rows columns].
  rewrite !map_map. apply map_ext. intros r.
  assert (Hnot : "點數變更記錄" ∉ filter (fun c => c ∈ columns result) drop_cols).
  { rewrite list_elem_of_filter. intros [_ Hd]. revert Hd. decide_labels. }
  rewrite get_select.
  - by apply get_foldr_delete.
  - apply list_elem_of_filter. split; [|decide_labels].
    apply list_elem_of_filter. done.
Qed.

Lemma reconcile_inv df_format df_index df_price out :
  reconcile df_format df_index df_price = Return out ->
  exists result,
    stage2 df_format df_index df_price = Return result
    /\ out = project (with_flag result).
Proof.
  unfold History.reconcile.
  destruct (History.stage2 _ _ _ _ _) as [result|e]; simpl; [|discriminate].
  intros [= <-]. by exists result.
Qed.

Lemma flag_of_indicator_valid (b : bool) :
  flag_of_indicator (if b then indicator_both else indicator_left_only)
  = Int (if b then 1 else 0).
Proof. by destruct b. Qed.

Lemma sum_flags {A} (valid : A -> bool) (l : list A) :
  foldr Z.add 0%Z
    (map cell_int (map (fun r => Int (if valid r then 1 else 0)) l))
  = Z.of_nat (length (filter (fun r => valid r = true) l)).
Proof.
  induction l as [|x l IH]; [done|].
  cbn [map foldr]. rewrite IH, filter_cons.
  destruct (valid x); case_decide; try done; cbn [cell_int length]; lia.
Qed.

(** C1: in the reconciled table of a validated triple the change flag of a
    row is 1 exactly when the indicator of the stage-2 left join is "both",
    that is when the normalized category name of the row belongs to the
    set of valid categories, and 0 otherwise; so every flag is 0 or 1 and
    the flags add up to the number of stage-1 rows with a valid
    category. *)
Theorem change_flag_spec df_format df_index df_price out :
  validated df_format df_index df_price ->
  reconcile df_format df_index df_price = Return out ->
  exists result,
    stage2 df_format df_index df_price = Return result
    /\ column "_merge" result
       = map (fun r => if category_valid df_format r then indicator_both
                       else indicator_left_only)
             (rows (stage1 df_index df_price))
    /\ column "點數變更記錄" out
       = map flag_of_indicator (column "_merge" result)
    /\ column "點數變更記錄" out
       = map (fun r => Int (if category_valid df_format r then 1 else 0))
             (rows (stage1 df_index df_price))
    /\ Forall (fun c => c = Int 0 \/ c = Int 1) (column "點數變更記錄" out)
    /\ Frame.sum_column "點數變更記錄" out
       = Z.of_nat (length (filter (fun r => category_valid df_format r = true)
                                  (rows (stage1 df_index df_price)))).
Proof.
  intros (_ & _ & Hprice)%validated_inv (result & Hres & ->)%reconcile_inv.
  assert (Hcol : "核價類別名稱" ∈ columns df_price).
  { apply (missing_columns_nil required_price); [done|]. decide_labels. }
  assert (Hind : column "_merge" result
       = map (fun r => if category_valid df_format r then indicator_both
                       else indicator_left_only)
             (rows (stage1 df_index df_price))).
  { unfold column.
    induction (stage2_rows _ _ _ _ Hcol Hres) as [|l row ls rs Hrow _ IH];
      [done|].
    cbn [map]. by rewrite Hrow, IH. }
  assert (Hflag : column "點數變更記錄" (project (with_flag result))
       = map flag_of_indicator (column "_merge" result)).
  { rewrite column_project by apply flag_column_present.
    apply column_with_flag. }
  assert (Hflags : column "點數變更記錄" (project (with_flag result))
       = map (fun r => Int (if category_valid df_format r then 1 else 0))
             (rows (stage1 df_index df_price))).
  { rewrite Hflag, Hind, map_map. apply map_ext. intros r.
    apply flag_of_indicator_valid. }
  exists result. repeat split; try done.
  - rewrite Hflags. apply Forall_forall. intros c (r & -> & _)%elem_of_map.
    destruct (category_valid df_format r); auto.
  - unfold sum_column. rewrite Hflags. apply sum_flags.
Qed.

End ReconcileFacts.

(** ** The boundary of [HistoryDataSearch] *)

Section BoundaryFacts.
Import Frame History.

Variable nfkc : ustr -> ustr.
Variable lower : ustr -> ustr.
Variable os_error_str : ExnClass -> string -> string.
Variable path_join : string -> string -> string.

Abbreviation try_body := (try_body nfkc lower os_error_str).
Abbreviation HistoryDataSearch :=
  (HistoryDataSearch nfkc lower os_error_str path_join).

Lemma first_missing_check df_format df_index df_price :
  check_columns [("df_format", required_format, df_format);
                 ("df_index", required_index, df_index);
                 ("df_price", required_price, df_price)]
  = match first_missing df_format df_index df_price with
    | None => Return tt
    | Some (df_name, missing) =>
        Raise (mkExn ValueError
                 (df_name +:+ " 缺少欄位: " +:+ py_repr_labels missing))
    end.
Proof.
  unfold first_missing. cbn [check_columns].
  destruct (missing_columns required_format df_format) as [|a l],
    (missing_columns required_index df_index) as [|a' l'],
    (missing_columns required_price df_price) as [|a'' l'']; reflexivity.
Qed.

Lemma first_missing_Some df_format df_index df_price df_name missing :
  first_missing df_format df_index df_price = Some (df_name, missing) ->
  missing <> []
  /\ ((df_name, missing) = ("df_format", missing_columns required_format df_format)
      \/ (df_name, missing) = ("df_index", missing_columns required_index df_index)
      \/ (df_name, missing) = ("df_price", missing_columns required_price df_price)).
Proof.
  unfold first_missing. intros H%head_Some_elem_of.
  apply list_elem_of_filter in H as [Hne H]. split; [done|].
  repeat (apply elem_of_cons in H as [->|H]; [tauto|]).
  by apply elem_of_nil in H.
Qed.

(** The body once the three files have been read. *)
Lemma try_body_read ff xf pf outf fs df_format df_index df_price :
  fs !! ff = Some (CsvFile df_format) ->
  fs !! xf = Some (CsvFile df_index) ->
  fs !! pf = Some (CsvFile df_price) ->
  try_body ff xf pf outf fs
  = (_ ← check_columns [("df_format", required_format, df_format);
                         ("df_index", required_index, df_index);
                         ("df_price", required_price, df_price)];
     result ← reconcile nfkc lower df_format df_index df_price;
     fs' ← to_csv os_error_str outf result fs;
     mret (result, summary result outf, fs')).
Proof.
  intros Hf Hx Hp. unfold History.try_body, read_csv. by rewrite Hf, Hx, Hp.
Qed.

Lemma handler_by_class e :
  handler e
  = (if is_FileNotFoundError e then "檔案不存在："
     else if is_ValueError e then "資料欄位錯誤："
     else "未預期錯誤：") +:+ exn_str e.
Proof.
  unfold handler. by destruct (is_FileNotFoundError e), (is_ValueError e).
Qed.


End BoundaryFacts.

(** ** The exact stage *)

Module LikeFacts.
Import IndexSQL.

Lemma like_percent_unfold p t :
  like (percent :: p) t
  = like p t || match t with [] => false | _ :: t' => like (percent :: p) t' end.
Proof. by destruct t. Qed.

Lemma like_underscore_unfold p t :
  like (underscore :: p) t
  = match t with [] => false | _ :: t' => like p t' end.
Proof. by destruct t. Qed.

Lemma like_literal_unfold c p t :
  is_meta c = false ->
  like (c :: p) t
  = match t with [] => false | d :: t' => like_char_eq c d && like p t' end.
Proof.
  unfold is_meta. intros [H1 H2]%orb_false_iff. cbn [like]. rewrite H1, H2.
  by destruct t.
Qed.

Lemma like_char_eq_refl c : like_char_eq c c = true.
Proof. unfold like_char_eq. by rewrite N.eqb_refl. Qed.

Lemma like_percent_suffix p t : like p t = true -> like (percent :: p) t = true.
Proof. intros H. by rewrite like_percent_unfold, H. Qed.

Lemma like_percent_skip p c t :
  like (percent :: p) t = true -> like (percent :: p) (c :: t) = true.
Proof. intros H. rewrite like_percent_unfold, H. apply orb_true_r. Qed.

(** [%] alone matches every text. *)
Lemma like_percent_all t : like [percent] t = true.
Proof.
  induction t as [|c t IH]; [done|]. by apply like_percent_skip.
Qed.

(** One pattern character against one text character. *)
Lemma like_cons_step c d p t :
  (c =? d)%N = true -> like p t = true -> like (percent :: p) t = true ->
  like (c :: p) (d :: t) = true.
Proof.
  intros Hcd%N.eqb_eq Hp Hpp. subst d.
  destruct (is_meta c) eqn:Hm.
  - unfold is_meta in Hm.
    apply orb_true_iff in Hm as [Hm|Hm]; apply N.eqb_eq in Hm; subst c.
    + by apply like_percent_skip.
    + by rewrite like_underscore_unfold.
  - by rewrite like_literal_unfold, like_char_eq_refl, Hp.
Qed.

(** A text that starts with the keyword as it is written matches the
    keyword followed by [%]. *)
Lemma like_prefix k t :
  Text.prefixb k t = true -> like (k ++ [percent]) t = true.
Proof.
  revert t. induction k as [|a k IH]; intros t; [intros _; apply like_percent_all|].
  destruct t as [|b t]; [done|]. simpl Text.prefixb.
  intros [Hab Hk]%andb_true_iff. specialize (IH t Hk).
  apply like_cons_step; [done|done|by apply like_percent_suffix].
Qed.

(** A text that contains the keyword as it is written is matched. *)
Lemma like_contains k t :
  Text.contains k t = true -> like (search_pattern k) t = true.
Proof.
  unfold search_pattern. induction t as [|c t IH]; simpl Text.contains.
  - rewrite orb_false_r. intros H. by apply like_percent_suffix, like_prefix.
  - intros [H|H]%orb_true_iff.
    + by apply like_percent_suffix, like_prefix.
    + by apply like_percent_skip, IH.
Qed.

Lemma sql_or_true_l b : sql_or (Some true) b = Some true.
Proof. by destruct b as [[]|]. Qed.

Lemma sql_or_true_r a : sql_or a (Some true) = Some true.
Proof. by destruct a as [[]|]. Qed.

Lemma where_like_iff keyword r :
  where_like keyword r = true <->
  sql_like (search_pattern keyword) (name r) = Some true
  \/ sql_like (search_pattern keyword) (size_class r) = Some true
  \/ sql_like (search_pattern keyword) (type_class r) = Some true.
Proof.
  unfold where_like.
  destruct (sql_like _ (name r)) as [[]|], (sql_like _ (size_class r)) as [[]|],
    (sql_like _ (type_class r)) as [[]|]; simpl; intuition congruence.
Qed.

Lemma field_contains_like keyword v :
  field_contains keyword v = true ->
  sql_like (search_pattern keyword) v = Some true.
Proof.
  destruct v as [s|]; [|done]. intros H%like_contains.
  unfold sql_like. cbn [fmap option_fmap option_map]. by rewrite H.
Qed.

Lemma record_contains_like keyword r :
  record_contains keyword r = true -> where_like keyword r = true.
Proof.
  unfold record_contains. rewrite where_like_iff, !orb_true_iff.
  intros [[H|H]|H]; apply field_contains_like in H; tauto.
Qed.

(** A keyword without [%] and [_] is matched as a substring, up to the
    case of ASCII letters. *)
Lemma like_meta_free_prefix k t :
  Forall (fun c => is_meta c = false) k ->
  like (k ++ [percent]) t = prefixb_nocase k t.
Proof.
  intros Hk. revert t. induction Hk as [|c k Hc _ IH]; intros t.
  - apply like_percent_all.
  - cbn [app]. rewrite like_literal_unfold by done.
    destruct t as [|d t]; [done|]. cbn [prefixb_nocase]. by rewrite IH.
Qed.

Lemma like_meta_free k t :
  Forall (fun c => is_meta c = false) k ->
  like (search_pattern k) t = contains_nocase k t.
Proof.
  intros Hk. unfold search_pattern.
  induction t as [|d t IH]; rewrite like_percent_unfold, like_meta_free_prefix by done.
  - done.
  - cbn [contains_nocase]. by rewrite IH.
Qed.

(** The literalized keyword is matched by the keyword taken as a
    pattern. *)
Lemma like_literalize p q t :
  like q t = true -> like (p ++ q) (literalize p ++ t) = true.
Proof.
  intros Hq. induction p as [|c p IH]; [done|].
  cbn [app literalize map]. fold (literalize p).
  destruct (is_meta c) eqn:Hm.
  - unfold is_meta in Hm.
    apply orb_true_iff in Hm as [Hm|Hm]; apply N.eqb_eq in Hm; subst c.
    + by apply like_percent_skip, like_percent_suffix.
    + by rewrite like_underscore_unfold.
  - by rewrite like_literal_unfold, like_char_eq_refl, IH.
Qed.

Lemma prefixb_elem k t c : Text.prefixb k t = true -> c ∈ k -> c ∈ t.
Proof.
  revert t. induction k as [|a k IH]; intros t Hp Hc; [by apply elem_of_nil in Hc|].
  destruct t as [|b t]; [done|]. simpl in Hp.
  apply andb_true_iff in Hp as [Hab%N.eqb_eq Hk]. subst b.
  apply elem_of_cons in Hc as [->|Hc]; [by left|]. right. by apply IH.
Qed.

Lemma contains_elem k t c : Text.contains k t = true -> c ∈ k -> c ∈ t.
Proof.
  induction t as [|b t IH]; simpl; intros H Hc.
  - rewrite orb_false_r in H. by apply (prefixb_elem k).
  - apply orb_true_iff in H as [H|H]; [by apply (prefixb_elem k)|].
    right. by apply IH.
Qed.

Lemma literalize_no_meta k c : c ∈ literalize k -> is_meta c = false.
Proof.
  unfold literalize. rewrite FrameFacts.elem_of_map. intros (d & -> & _).
  by destruct (is_meta d) eqn:E.
Qed.

Lemma contains_literalize k c :
  c ∈ k -> is_meta c = true -> Text.contains k (literalize k) = false.
Proof.
  intros Hc Hm. apply not_true_iff_false. intros H.
  pose proof (literalize_no_meta k c (contains_elem _ _ _ H Hc)). congruence.
Qed.

Lemma where_like_nocase keyword r :
  Forall (fun c => is_meta c = false) keyword ->
  where_like keyword r = record_contains_nocase keyword r.
Proof.
  intros Hk. unfold where_like, record_contains_nocase, sql_like.
  destruct (name r) as [n|], (size_class r) as [z|], (type_class r) as [y|];
    cbn [fmap option_fmap option_map field_contains_nocase];
    rewrite ?like_meta_free by done;
    repeat match goal with |- context [contains_nocase ?k ?t] =>
      destruct (contains_nocase k t) end; reflexivity.
Qed.

Lemma where_like_percent r : where_like [percent] r = true <-> searchable r.
Proof.
  assert (H : forall t, like (search_pattern [percent]) t = true).
  { intros t. unfold search_pattern.
    by apply like_percent_suffix, like_percent_suffix, like_percent_all. }
  rewrite where_like_iff. unfold searchable, sql_like.
  destruct (name r) as [n|], (size_class r) as [z|], (type_class r) as [y|];
    cbn [fmap option_fmap option_map]; rewrite ?H; intuition congruence.
Qed.

End LikeFacts.

Section ExactStage.
Import IndexSQL LikeFacts.

Variable score : ustr -> option ustr -> Z.

(** C2: when the exact stage finds at least one record, the search returns
    exactly the records it found, as pairs of name and code, in the order
    of the table; the scorer and the threshold of the fuzzy stage play no
    part in the result. Every record whose name, size class or type class
    contains the keyword as it is written is among them. *)
Theorem exact_stage_precedence products keyword threshold :
  direct_matches products keyword <> [] ->
  fuzzy_search_product score products keyword threshold
  = map match_result (direct_matches products keyword)
  /\ (forall r, r ∈ products -> record_contains keyword r = true ->
        match_result r ∈ fuzzy_search_product score products keyword threshold).
Proof.
  intros Hne.
  assert (H : fuzzy_search_product score products keyword threshold
              = map match_result (direct_matches products keyword)).
  { unfold fuzzy_search_product. by destruct (direct_matches products keyword). }
  split; [done|]. intros r Hr Hc. rewrite H.
  apply FrameFacts.elem_of_map. exists r. split; [done|].
  apply list_elem_of_filter. split; [|done]. by apply record_contains_like.
Qed.


End ExactStage.


(** ** The fuzzy stage *)

Module SortFacts.
Import IndexSQL.

Section Sorting.
Context {A : Type} (key : A -> Z).

Lemma insert_desc_perm x l : insert_desc key x l ≡ₚ x :: l.
Proof.
  induction l as [|y l IH]; simpl; [done|].
  destruct (key x <? key y)%Z; [|done].
  rewrite IH. apply perm_swap.
Qed.

Lemma sorted_desc_perm l : sorted_desc key l ≡ₚ l.
Proof.
  induction l as [|x l IH]; simpl; [done|].
  by rewrite insert_desc_perm, IH.
Qed.

Lemma insert_desc_sorted before x l :
  StronglySorted (stable_order key before) l ->
  Forall (before x) l ->
  StronglySorted (stable_order key before) (insert_desc key x l).
Proof.
  intros Hs Hx. induction Hs as [|y l Hs IH Hy]; simpl.
  - repeat constructor.
  - apply Forall_cons in Hx as [Hxy Hxl].
    destruct (key x <? key y)%Z eqn:E.
    + apply Z.ltb_lt in E. constructor; [by apply IH|].
      rewrite insert_desc_perm. constructor; [by left|done].
    + apply Z.ltb_ge in E. constructor; [by constructor|].
      constructor.
      * unfold stable_order. destruct (decide (key x = key y)); [right|left]; [done|lia].
      * rewrite Forall_forall in Hy, Hxl |- *. intros z Hz.
        specialize (Hy z Hz). specialize (Hxl z Hz). unfold stable_order in *.
        destruct (decide (key x = key z)); [by right|left].
        destruct Hy as [?|[? _]]; lia.
Qed.

Lemma sorted_desc_stable before l :
  StronglySorted before l ->
  StronglySorted (stable_order key before) (sorted_desc key l).
Proof.
  induction 1 as [|x l Hs IH Hx]; simpl; [constructor|].
  apply insert_desc_sorted; [done|]. by rewrite sorted_desc_perm.
Qed.

End Sorting.

Lemma insert_desc_map {A B} (f : A -> B) (key : B -> Z) x l :
  insert_desc key (f x) (map f l) = map f (insert_desc (fun a => key (f a)) x l).
Proof.
  induction l as [|y l IH]; simpl; [done|].
  destruct (key (f x) <? key (f y))%Z; simpl; by rewrite ?IH.
Qed.

Lemma sorted_desc_map {A B} (f : A -> B) (key : B -> Z) l :
  sorted_desc key (map f l) = map f (sorted_desc (fun a => key (f a)) l).
Proof.
  induction l as [|x l IH]; simpl; [done|].
  by rewrite IH, insert_desc_map.
Qed.

Lemma StronglySorted_sublist {A} (R : A -> A -> Prop) l1 l2 :
  sublist l1 l2 -> StronglySorted R l2 -> StronglySorted R l1.
Proof.
  induction 1 as [|x l1 l2 Hsub IH|x l1 l2 Hsub IH]; intros Hs.
  - constructor.
  - apply StronglySorted_inv in Hs as [Hs Hx]. constructor; [by apply IH|].
    rewrite Forall_forall in Hx |- *. intros y Hy. apply Hx.
    by apply (elem_of_sublist l1).
  - apply StronglySorted_inv in Hs as [Hs _]. by apply IH.
Qed.

(** The positions of [indexed] grow along the list. *)
Lemma indexed_sorted_from {A} (g : nat -> nat) (l : list A) :
  (forall i j, i < j -> g i < g j) ->
  StronglySorted (fun a b : nat * A => a.1 < b.1) (imap (fun i x => (g i, x)) l).
Proof.
  revert g. induction l as [|x l IH]; intros g Hg; simpl; [constructor|].
  constructor.
  - apply (IH (fun i => g (S i))). intros i j Hij. apply Hg. lia.
  - apply Forall_forall. intros [i y] (j & z & [= -> ->] & _)%elem_of_lookup_imap.
    simpl. apply Hg. lia.
Qed.

Lemma indexed_sorted {A} (l : list A) :
  StronglySorted (fun a b : nat * A => a.1 < b.1) (indexed l).
Proof. apply (indexed_sorted_from (fun i => i)). auto. Qed.

Lemma indexed_snd {A} (l : list A) : map snd (indexed l) = l.
Proof.
  unfold indexed. rewrite FrameFacts.map_fmap, fmap_imap.
  induction l as [|x l IH] using rev_ind; [done|].
  rewrite imap_app, IH. done.
Qed.

Lemma indexed_lookup {A} (l : list A) p : p ∈ indexed l -> l !! p.1 = Some p.2.
Proof.
  unfold indexed. by intros (i & x & -> & Hx)%elem_of_lookup_imap.
Qed.

End SortFacts.

Section FuzzyStage.
Import IndexSQL SortFacts.

Variable score : ustr -> option ustr -> Z.

Abbreviation scored := (scored score).

Lemma extractWithoutOrder_indexed keyword choices :
  extractWithoutOrder score keyword choices
  = map (scored keyword) (scored_candidates score keyword choices).
Proof.
  unfold extractWithoutOrder, scored_candidates.
  rewrite <- (indexed_snd choices) at 1.
  rewrite map_map, FrameFacts.filter_map. f_equal.
  apply FrameFacts.filter_iff. intros p _. simpl. apply Z.leb_le.
Qed.

Lemma extract_ranking keyword choices limit :
  extract score keyword choices limit
  = map (scored keyword)
        (take limit (sorted_desc (fun p => score keyword p.2)
                                 (scored_candidates score keyword choices))).
Proof.
  unfold extract, nlargest.
  by rewrite extractWithoutOrder_indexed, sorted_desc_map, firstn_map.
Qed.

Lemma resolve_cons products threshold m matches :
  resolve products threshold (m :: matches)
  = (if (threshold <=? m.2)%Z then
       match fetch_code products m.1 with
       | Some ref_code => [(m.1, ref_code)]
       | None => []
       end
     else []) ++ resolve products threshold matches.
Proof. reflexivity. Qed.

(** The loop returns, in their order, the candidates it keeps, each with
    the code of the first product of its name. *)
Lemma resolve_kept products keyword threshold cands :
  Forall2 (fun p m => m.1 = p.2 /\ fetch_code products p.2 = Some m.2)
          (kept score products keyword threshold cands)
          (resolve products threshold (map (scored keyword) cands))
  /\ Forall (fun m => (threshold <= score keyword m.1)%Z)
            (resolve products threshold (map (scored keyword) cands)).
Proof.
  unfold kept. induction cands as [|p cands [IH1 IH2]]; [by split|].
  cbn [map]. rewrite resolve_cons, filter_cons.
  change (scored keyword p) with (p.2, score keyword p.2). cbn [fst snd].
  destruct (threshold <=? score keyword p.2)%Z eqn:E.
  - apply Z.leb_le in E. destruct (fetch_code products p.2) as [c|] eqn:Ec.
    + rewrite decide_True by (split; [done|by eexists]).
      split; constructor; done.
    + rewrite decide_False by (intros [_ [? ?]]; congruence). by split.
  - apply Z.leb_gt in E. rewrite decide_False by (intros [? _]; lia). by split.
Qed.

(** A name of the table is the name of a product. *)
Lemma fetch_code_found products i n :
  map name products !! i = Some (Some n) ->
  is_Some (fetch_code products (Some n)).
Proof.
  intros Hi. apply list_elem_of_lookup_2 in Hi.
  apply FrameFacts.elem_of_map in Hi as (r & Hn & Hr).
  unfold fetch_code.
  destruct (filter _ products) as [|r' rs] eqn:E; [|by eexists].
  exfalso. apply (filter_nil_not_elem_of _ _ r E); [|done].
  rewrite <- Hn. simpl. by rewrite bool_decide_eq_true_2.
Qed.

Lemma kept_length products keyword threshold cands :
  length (kept score products keyword threshold cands) <= length cands.
Proof. apply sublist_length, sublist_filter. Qed.

(** C6: when the exact stage finds nothing, the result comes from the
    ranking of the product names by descending score, names of equal score
    in their order in the table.  At most the first 30 names of the ranking
    are considered; those below the threshold (and a NULL name, which no
    product carries) are left out; the others are returned in the order of
    the ranking, each with the code of the first product of that name. *)
Theorem fuzzy_stage_spec products keyword threshold :
  direct_matches products keyword = [] ->
  exists ranking,
    ranking ≡ₚ scored_candidates score keyword (map name products)
    /\ StronglySorted (ranks_before score keyword) ranking
    /\ let cands := take 30 ranking in
       let picks := kept score products keyword threshold cands in
       let result := fuzzy_search_product score products keyword threshold in
       length cands <= 30
       /\ Forall (fun p => map name products !! p.1 = Some p.2) cands
       /\ StronglySorted (ranks_before score keyword) picks
       /\ Forall2 (fun p m => m.1 = p.2 /\ fetch_code products p.2 = Some m.2)
                  picks result
       /\ Forall (fun m => (threshold <= score keyword m.1)%Z) result
       /\ length result <= 30
       /\ (forall p, p ∈ cands -> (threshold <= score keyword p.2)%Z ->
             p.2 <> None -> p ∈ picks).
Proof.
  intros Hdirect.
  set (ranking := sorted_desc (fun p => score keyword p.2)
                    (scored_candidates score keyword (map name products))).
  assert (Hperm : ranking ≡ₚ scored_candidates score keyword (map name products))
    by apply sorted_desc_perm.
  assert (Hsorted : StronglySorted (ranks_before score keyword) ranking).
  { apply sorted_desc_stable.
    apply (StronglySorted_sublist _ _ (indexed (map name products)));
      [apply sublist_filter | apply indexed_sorted]. }
  exists ranking. split; [done|]. split; [done|]. cbv zeta.
  assert (Hres : fuzzy_search_product score products keyword threshold
    = resolve products threshold (map (scored keyword) (take 30 ranking))).
  { unfold fuzzy_search_product, fuzzy_matches. rewrite Hdirect.
    by rewrite extract_ranking. }
  rewrite Hres.
  destruct (resolve_kept products keyword threshold (take 30 ranking))
    as [Hpicks Hthr].
  assert (Hlen : length (take 30 ranking) <= 30) by apply firstn_le_length.
  repeat split; try done.
  - apply Forall_forall. intros p Hp. apply indexed_lookup.
    assert (Hin : p ∈ scored_candidates score keyword (map name products)).
    { rewrite <- Hperm. by apply (elem_of_sublist _ _ _ Hp), sublist_take. }
    unfold scored_candidates in Hin. by apply list_elem_of_filter in Hin as [_ ?].
  - apply (StronglySorted_sublist _ _ ranking); [|done].
    etransitivity; [apply sublist_filter | apply sublist_take].
  - rewrite <- (Forall2_length _ _ _ Hpicks).
    pose proof (kept_length products keyword threshold (take 30 ranking)). lia.
  - intros p Hp Hge Hname. apply list_elem_of_filter. split; [|done].
    split; [done|]. destruct p as [i [n|]]; [|done].
    apply (fetch_code_found products i). apply (indexed_lookup _ (i, Some n)).
    assert (Hin : (i, Some n) ∈ scored_candidates score keyword (map name products)).
    { rewrite <- Hperm. by apply (elem_of_sublist _ _ _ Hp), sublist_take. }
    unfold scored_candidates in Hin. by apply list_elem_of_filter in Hin as [_ ?].
Qed.

End FuzzyStage.

(** ** The expansion *)

Section Expansion.
Import IndexSQL.

Variable score : ustr -> option ustr -> Z.
Variable os_error_str : ExnClass -> string -> string.
Variable path_join : string -> string -> string.
Variable path_dirname : string -> string.


End Expansion.

(** * The scenarios *)

Module Scenarios.
Import Sample.

(** C1 on the sample: the price row of category "Foo" is flagged, the one
    of category "Bar" is not, and the row whose code matches no product is
    absent. *)
Lemma change_flag_spec_witness :
  History.validated df_format df_index df_price
  /\ exists out,
       History.reconcile nfkc lower df_format df_index df_price = Return out
       /\ column "點數變更記錄" out = [Int 1; Int 0]
       /\ Frame.sum_column "點數變更記錄" out = 1%Z.
Proof.
  assert (Hvalid : History.validated df_format df_index df_price)
    by (by vm_compute).
  split; [done|].
  destruct (History.reconcile nfkc lower df_format df_index df_price)
    as [out|e] eqn:E; [|by vm_compute in E].
  exists out. split; [done|].
  destruct (change_flag_spec nfkc lower _ _ _ out Hvalid E)
    as (result & _ & _ & _ & Hflags & _ & Hsum).
  split; [rewrite Hflags | rewrite Hsum]; by vm_compute.
Defined.

(** C3: with two products of the code AB123 in the expanded table, the
    three rows of the price table give four rows. *)
Lemma stage1_expands :
  History.validated df_format df_index_siblings df_price
  /\ nrows df_price = 3
  /\ nrows (History.stage1 nfkc lower df_index_siblings df_price) = 4
  /\ ~ nrows (History.stage1 nfkc lower df_index_siblings df_price)
       <= nrows df_price.
Proof. vm_compute. repeat split; try done. lia. Qed.

Lemma stage1_at_most_price_rows_witness :
  NoDup (column "功能類別(前5碼)" df_index)
  /\ nrows (History.stage1 nfkc lower df_index df_price) <= nrows df_price.
Proof.
  assert (H : NoDup (column "功能類別(前5碼)" df_index)) by decide_labels.
  split; [done|]. by apply stage1_at_most_price_rows.
Defined.

Lemma stage2_keeps_every_row_witness :
  exists result,
    History.stage2 nfkc lower df_format df_index_siblings df_price = Return result
    /\ nrows result = 4
    /\ nrows (History.with_flag result) = 4.
Proof.
  destruct (History.stage2 nfkc lower df_format df_index_siblings df_price)
    as [result|e] eqn:E; [|by vm_compute in E].
  exists result. split; [done|].
  destruct (stage2_keeps_every_row nfkc lower _ _ _ result E) as [-> ->].
  by vm_compute.
Defined.


(** C2 on the sample: the keyword "scalpel" is found by the exact stage in
    two product names. *)
Lemma exact_stage_precedence_witness :
  IndexSQL.direct_matches products (u "scalpel") <> []
  /\ IndexSQL.fuzzy_search_product score products (u "scalpel") 40
     = [(Some (u "Scalpel Pro"), Some (u "AB123"));
        (Some (u "Scalpel Mini"), Some (u "AB123"))].
Proof.
  assert (H : IndexSQL.direct_matches products (u "scalpel") <> [])
    by (by vm_compute).
  split; [done|].
  destruct (exact_stage_precedence score products (u "scalpel") 40 H) as [-> _].
  by vm_compute.
Defined.

(** C6 on the sample: the keyword "scalpl" is found by the fuzzy stage
    only; the two names of score 85 come in their order in the table and
    the name of score 20 is left out. *)
Lemma fuzzy_stage_spec_witness :
  IndexSQL.direct_matches products (u "scalpl") = []
  /\ length (IndexSQL.fuzzy_search_product score products (u "scalpl") 40) <= 30
  /\ IndexSQL.fuzzy_search_product score products (u "scalpl") 40
     = [(Some (u "Scalpel Pro"), Some (u "AB123"));
        (Some (u "Scalpel Mini"), Some (u "AB123"))].
Proof.
  assert (H : IndexSQL.direct_matches products (u "scalpl") = [])
    by (by vm_compute).
  split; [done|].
  destruct (fuzzy_stage_spec score products (u "scalpl") 40 H)
    as (ranking & _ & _ & _ & _ & _ & _ & _ & Hlen & _).
  split; [done|]. by vm_compute.
Defined.



End Scenarios.

(** * Further properties *)

(** ** Labels of merged frames *)

Module LabelFacts.
Import Labels Frame FrameFacts.

Lemma ends_with2_app a b s :
  ends_with2 a b (s +:+ String a (String b EmptyString)) = true.
Proof.
  induction s as [|c t IH]; simpl.
  - by rewrite !bool_decide_eq_true_2.
  - destruct t as [|d t']; simpl in *.
    + by rewrite !bool_decide_eq_true_2.
    + destruct t' as [|e t'']; simpl in *; done.
Qed.

Lemma plain_not_suffixed c c0 :
  plain c = true -> c0 +:+ "_x" <> c /\ c0 +:+ "_y" <> c.
Proof.
  unfold plain. intros [Hx Hy]%andb_true_iff.
  apply negb_true_iff in Hx, Hy.
  split; intros <-; by rewrite ends_with2_app in *.
Qed.

Lemma elem_of_overlap L R c : c ∈ overlap L R <-> c ∈ L /\ c ∈ R.
Proof. unfold overlap. rewrite list_elem_of_filter. tauto. Qed.

(** A plain label belongs to the merged frame exactly when it belongs to
    one of the two frames only: a label of both frames is suffixed. *)
Lemma rename_plain L R sfx c0 c :
  (forall c1, c1 +:+ sfx <> c) ->
  rename (overlap L R) sfx c0 = c <-> c0 = c /\ ~ (c ∈ L /\ c ∈ R).
Proof.
  intros Hsfx. unfold rename. case_bool_decide as Hov.
  - split; [intros Heq; by destruct (Hsfx c0)|].
    intros [-> Hn]. by apply elem_of_overlap in Hov.
  - split; [intros ->|intros [-> _]; done].
    split; [done|]. by rewrite <- elem_of_overlap.
Qed.

Lemma elem_of_merged_columns L R c :
  plain c = true ->
  c ∈ merged_columns L R <-> (c ∈ L /\ c ∉ R) \/ (c ∈ R /\ c ∉ L).
Proof.
  intros Hplain. unfold merged_columns.
  rewrite elem_of_app, !elem_of_map. split.
  - intros [(c0 & Heq & Hc0)|(c0 & Heq & Hc0)]; symmetry in Heq;
      apply rename_plain in Heq as [-> Hn];
      try (intros c1; apply (plain_not_suffixed c c1 Hplain)); tauto.
  - intros [[HL HR]|[HR HL]]; [left|right]; exists c; (split; [|done]);
      symmetry; apply rename_plain;
      try (intros c1; apply (plain_not_suffixed c c1 Hplain)); tauto.
Qed.

End LabelFacts.

(** ** The output of the reconciliation *)

Section OutputFacts.
Import Labels LabelFacts Frame FrameFacts History.

Variable nfkc : ustr -> ustr.
Variable lower : ustr -> ustr.

Abbreviation stage1 := (stage1 nfkc lower).
Abbreviation stage2 := (stage2 nfkc lower).
Abbreviation df_format_valid := (df_format_valid nfkc lower).
Abbreviation reconcile := (reconcile nfkc lower).
Abbreviation stage1_row := (stage1_row nfkc lower).

(** What the proofs use of a label of the output schema. *)
Lemma schema_label c :
  c ∈ output_columns ->
  plain c = true
  /\ (c ∉ ["功能類別(前5碼)"; "名稱_clean"])
  /\ c <> "核價類別_clean" /\ c <> "核價類別名稱_clean" /\ c <> "_merge"
  /\ c ∉ drop_cols.
Proof.
  assert (H : Forall (fun c =>
      plain c = true
      /\ (c ∉ ["功能類別(前5碼)"; "名稱_clean"])
      /\ c <> "核價類別_clean" /\ c <> "核價類別名稱_clean" /\ c <> "_merge"
      /\ c ∉ drop_cols) output_columns) by decide_labels.
  rewrite Forall_forall in H. apply H.
Qed.

Lemma with_clean_price_column df_price c :
  c <> "核價類別名稱_clean" ->
  c ∈ columns (with_clean_price nfkc lower df_price) <-> c ∈ columns df_price.
Proof.
  intros Hne. unfold with_clean_price, assign_apply. cbn [columns].
  case_bool_decide; [done|]. rewrite elem_of_app, list_elem_of_singleton. tauto.
Qed.

Lemma stage1_column df_index df_price c :
  c ∈ output_columns ->
  c ∈ columns (stage1 df_index df_price) <-> c ∈ columns df_price.
Proof.
  intros (Hplain & HR & _ & Hclean & _)%schema_label.
  change (columns (stage1 df_index df_price))
    with (merged_columns (columns (with_clean_price nfkc lower df_price))
            ["功能類別(前5碼)"; "名稱_clean"]).
  rewrite elem_of_merged_columns by done.
  rewrite with_clean_price_column by done. tauto.
Qed.

Lemma stage2_columns df_format df_index df_price result :
  stage2 df_format df_index df_price = Return result ->
  columns result
  = merged_columns (columns (stage1 df_index df_price)) ["核價類別_clean"]
    ++ ["_merge"].
Proof.
  unfold History.stage2, merge_left_indicator.
  destruct (filter _ reserved_indicator_columns); [|discriminate].
  by intros [= <-].
Qed.

Lemma stage2_column df_format df_index df_price result c :
  stage2 df_format df_index df_price = Return result ->
  c ∈ output_columns ->
  c ∈ columns result <-> c ∈ columns df_price.
Proof.
  intros Hres Hc. pose proof (schema_label c Hc) as (Hplain & _ & HR & _ & Hm & _).
  rewrite (stage2_columns _ _ _ _ Hres), elem_of_app, list_elem_of_singleton.
  rewrite elem_of_merged_columns by done.
  rewrite stage1_column by done. rewrite list_elem_of_singleton. tauto.
Qed.

(** The labels of the frame that step 9 projects. *)
Lemma projected_column result c :
  c ∈ output_columns ->
  c ∈ columns (drop (filter (fun c => c ∈ columns (with_flag result)) drop_cols)
                    (with_flag result))
  <-> c ∈ columns result \/ c = "點數變更記錄".
Proof.
  intros (_ & _ & _ & _ & _ & Hdrop)%schema_label.
  unfold drop. cbn [columns]. rewrite list_elem_of_filter.
  assert (Hflag : c ∈ columns (with_flag result)
                  <-> c ∈ columns result \/ c = "點數變更記錄").
  { unfold with_flag, assign_apply. cbn [columns]. case_bool_decide as Hin.
    - split; [tauto|]. intros [?| ->]; done.
    - by rewrite elem_of_app, list_elem_of_singleton. }
  rewrite Hflag. split; [tauto|]. intros H. split; [|done].
  rewrite list_elem_of_filter. tauto.
Qed.

(** X1: the output has the labels of the schema that the price table has, in
    the order of the schema, and the change flag; so it has none of the
    helper columns. *)
Theorem output_schema df_format df_index df_price out :
  reconcile df_format df_index df_price = Return out ->
  columns out
  = filter (fun c => c ∈ columns df_price \/ c = "點數變更記錄") output_columns
  /\ "點數變更記錄" ∈ columns out
  /\ Forall (fun c => c ∉ columns out)
       ["名稱_clean"; "核價類別_clean"; "核價類別名稱_clean"; "_merge";
        "功能類別(前5碼)"].
Proof.
  intros (result & Hres & ->)%reconcile_inv.
  assert (Hcols : columns (project (with_flag result))
    = filter (fun c => c ∈ columns df_price \/ c = "點數變更記錄") output_columns).
  { unfold project, select. cbn [columns]. apply filter_iff. intros c Hc.
    rewrite projected_column by done.
    by rewrite (stage2_column _ _ _ _ _ Hres Hc). }
  rewrite Hcols. split; [done|]. split.
  - apply list_elem_of_filter. split; [by right|decide_labels].
  - assert (H : Forall (fun c => c ∉ output_columns)
      ["名稱_clean"; "核價類別_clean"; "核價類別名稱_clean"; "_merge";
       "功能類別(前5碼)"]) by decide_labels.
    eapply Forall_impl; [exact H|]. intros c Hc [_ Hout]%list_elem_of_filter.
    done.
Qed.

(** *** The cells of the output *)

Lemma stage1_row_cell df_price p i c :
  c ∈ output_columns -> c ∈ columns df_price ->
  get c (stage1_row df_price p i) = get c p.
Proof.
  intros (Hplain & HR & _ & Hclean & _)%schema_label Hcol.
  unfold History.stage1_row. rewrite get_merged_left.
  - unfold History.price_row. by apply get_insert_ne.
  - by apply with_clean_price_column.
  - done.
  - intros c0 _. apply (plain_not_suffixed c c0 Hplain).
Qed.

Lemma replicate_cells {A} (f : A -> gmap string Cell) c v (xs : list A) :
  (forall x, get c (f x) = v) ->
  map (get c) (map f xs) = replicate (length xs) v.
Proof.
  intros Hf. induction xs as [|x xs IH]; [done|].
  cbn [map length replicate]. by rewrite Hf, IH.
Qed.

Lemma stage1_cells df_index df_price c :
  c ∈ output_columns -> c ∈ columns df_price ->
  column c (stage1 df_index df_price)
  = flat_map (fun p => replicate (length (same_code df_index p)) (get c p))
             (rows df_price).
Proof.
  intros Hc Hcol. unfold column. rewrite stage1_rows.
  induction (rows df_price) as [|p ps IH]; [done|].
  cbn [flat_map]. rewrite map_app, IH. f_equal.
  apply replicate_cells. intros i. by apply stage1_row_cell.
Qed.

Lemma left_rows_cell df_format left l c :
  c ∈ output_columns -> c ∈ columns left ->
  Forall (fun row => get c row = get c l)
         (left_rows left (df_format_valid df_format)
            "核價類別名稱_clean" "核價類別_clean" l).
Proof.
  intros (Hplain & _ & HR & _ & Hm & _)%schema_label Hcol.
  assert (Hget : forall r,
    get c (<["_merge" := r.1]>
             (merged_row (columns left) (columns (df_format_valid df_format)) l r.2))
    = get c l).
  { intros r. rewrite get_insert_ne by done. apply get_merged_left.
    - done.
    - change (columns (df_format_valid df_format)) with ["核價類別_clean"].
      by rewrite list_elem_of_singleton.
    - intros c0 _. apply (plain_not_suffixed c c0 Hplain). }
  unfold left_rows. destruct (matching _ _ _ l) as [|r ms].
  - constructor; [|constructor]. apply (Hget (indicator_left_only, ∅)).
  - apply Forall_forall. intros row (r' & -> & _)%elem_of_map.
    apply (Hget (indicator_both, r')).
Qed.

Lemma stage2_cells df_format df_index df_price result c :
  stage2 df_format df_index df_price = Return result ->
  c ∈ output_columns -> c ∈ columns df_price ->
  column c result = column c (stage1 df_index df_price).
Proof.
  intros Hres Hc Hcol. unfold column. rewrite (stage2_inv _ _ _ _ _ _ Hres).
  assert (Hin : c ∈ columns (stage1 df_index df_price)) by by apply stage1_column.
  induction (rows (stage1 df_index df_price)) as [|l ls IH]; [done|].
  cbn [flat_map map]. rewrite map_app, IH. f_equal.
  pose proof (left_rows_cell df_format (stage1 df_index df_price) l c Hc Hin) as Hcell.
  destruct (left_rows_single nfkc lower df_format (stage1 df_index df_price) l)
    as [row Hrow].
  rewrite Hrow in Hcell |- *. apply Forall_cons in Hcell as [Hrowc _].
  cbn [map]. by rewrite Hrowc.
Qed.

Lemma project_cells result c :
  c ∈ output_columns -> c <> "點數變更記錄" -> c ∈ columns result ->
  column c (project (with_flag result)) = column c result.
Proof.
  intros Hc Hflag Hcol. pose proof (schema_label c Hc) as (_ & _ & _ & _ & _ & Hdrop).
  unfold column, project, select, drop. cbn [rows columns].
  change (rows (with_flag result))
    with (map (fun r => <["點數變更記錄" := flag_of_indicator (get "_merge" r)]> r)
              (rows result)).
  rewrite !map_map. apply map_ext. intros r. rewrite get_select.
  - rewrite get_foldr_delete; [by apply get_insert_ne|].
    rewrite list_elem_of_filter. tauto.
  - apply list_elem_of_filter. split; [|done].
    apply (projected_column result c Hc). by left.
Qed.

(** X2: every column of the schema that the price table has keeps, in the
    output, the cells of the price table as they were read: the cell of a
    price row is repeated once for every row of the expanded table with
    the code of that price row, so a price row without such a row is
    absent, and the others keep their order. *)
Theorem output_cells df_format df_index df_price out c :
  reconcile df_format df_index df_price = Return out ->
  c ∈ output_columns -> c <> "點數變更記錄" -> c ∈ columns df_price ->
  column c out
  = flat_map (fun p => replicate (length (same_code df_index p)) (get c p))
             (rows df_price).
Proof.
  intros (result & Hres & ->)%reconcile_inv Hc Hflag Hcol.
  rewrite project_cells; [|done|done|by apply (stage2_column _ _ _ _ _ Hres)].
  rewrite (stage2_cells _ _ _ _ _ Hres) by done.
  by apply stage1_cells.
Qed.

(** *** The counts of the summary *)

Lemma stage2_nrows df_format df_index df_price result :
  stage2 df_format df_index df_price = Return result ->
  nrows result = nrows (stage1 df_index df_price).
Proof.
  intros Hres. unfold nrows. rewrite (stage2_inv _ _ _ _ _ _ Hres). symmetry.
  apply (Forall2_length (fun _ _ => True)), flat_map_singletons.
  intros l _.
  destruct (left_rows_single nfkc lower df_format (stage1 df_index df_price) l)
    as [row Hrow].
  by exists row.
Qed.

Lemma project_nrows result : nrows (project (with_flag result)) = nrows result.
Proof.
  unfold nrows, project, select, drop, with_flag, assign_apply. cbn [rows].
  by rewrite !length_map.
Qed.

Lemma flags_sum_bounds (l : list Cell) :
  (0 <= foldr Z.add 0 (map cell_int (map flag_of_indicator l)) <= Z.of_nat (length l))%Z.
Proof.
  induction l as [|x l IH]; simpl; [lia|].
  case_bool_decide; lia.
Qed.

(** X3: the two numbers of the summary: the table has one row for every pair
    of a price row and a row of the expanded table with the same code, and
    the number of flagged rows lies between 0 and the number of rows. *)
Theorem summary_counts df_format df_index df_price out :
  reconcile df_format df_index df_price = Return out ->
  nrows out
  = list_sum (map (fun p => length (same_code df_index p)) (rows df_price))
  /\ (0 <= sum_column "點數變更記錄" out <= Z.of_nat (nrows out))%Z.
Proof.
  intros (result & Hres & ->)%reconcile_inv. rewrite project_nrows. split.
  - rewrite (stage2_nrows _ _ _ _ Hres). apply stage1_nrows.
  - unfold sum_column.
    rewrite column_project by apply flag_column_present.
    rewrite column_with_flag.
    replace (nrows result) with (length (column "_merge" result))
      by apply length_map.
    apply flags_sum_bounds.
Qed.

(** *** When the reconciliation raises *)

Lemma reserved_label c :
  c ∈ reserved_indicator_columns ->
  plain c = true
  /\ (c ∉ ["功能類別(前5碼)"; "名稱_clean"])
  /\ c <> "核價類別_clean" /\ c <> "核價類別名稱_clean".
Proof.
  assert (H : Forall (fun c =>
      plain c = true
      /\ (c ∉ ["功能類別(前5碼)"; "名稱_clean"])
      /\ c <> "核價類別_clean" /\ c <> "核價類別名稱_clean")
    reserved_indicator_columns) by decide_labels.
  rewrite Forall_forall in H. apply H.
Qed.

Lemma reserved_in_merge df_format df_index df_price c :
  c ∈ reserved_indicator_columns ->
  c ∈ (columns (stage1 df_index df_price)
       ++ columns (df_format_valid df_format))%list
  <-> c ∈ columns df_price.
Proof.
  intros (Hplain & HR & Hvalid & Hclean)%reserved_label.
  change (columns (df_format_valid df_format)) with ["核價類別_clean"].
  change (columns (stage1 df_index df_price))
    with (merged_columns (columns (with_clean_price nfkc lower df_price))
            ["功能類別(前5碼)"; "名稱_clean"]).
  rewrite elem_of_app, list_elem_of_singleton.
  rewrite elem_of_merged_columns by done.
  rewrite with_clean_price_column by done. tauto.
Qed.

Lemma reconcile_outcome df_format df_index df_price :
  match reconcile df_format df_index df_price with
  | Return _ => Forall (fun c => c ∉ columns df_price) reserved_indicator_columns
  | Raise e =>
      exn_class e = ValueError
      /\ Exists (fun c => c ∈ columns df_price) reserved_indicator_columns
  end.
Proof.
  unfold History.reconcile, History.stage2, merge_left_indicator.
  destruct (filter _ reserved_indicator_columns) as [|c cs] eqn:E; simpl.
  - apply Forall_forall. intros c Hc Hin.
    apply (filter_nil_not_elem_of _ _ c E); [|done].
    by apply reserved_in_merge.
  - assert (Hc : c ∈ filter
        (fun c => c ∈ (columns (stage1 df_index df_price)
                       ++ columns (df_format_valid df_format))%list)
        reserved_indicator_columns) by (rewrite E; by left).
    apply list_elem_of_filter in Hc as [Hin Hres]. split; [done|].
    apply Exists_exists. exists c. split; [done|].
    by apply (reserved_in_merge df_format df_index).
Qed.

(** X4: a price table with a column named [_merge], [_left_indicator] or
    [_right_indicator] cannot be reconciled: the left merge with indicator
    raises a [ValueError]. *)
Theorem indicator_column_refused df_format df_index df_price :
  Exists (fun c => c ∈ columns df_price) reserved_indicator_columns ->
  exists e,
    reconcile df_format df_index df_price = Raise e
    /\ exn_class e = ValueError.
Proof.
  intros Hex. pose proof (reconcile_outcome df_format df_index df_price) as H.
  destruct (reconcile df_format df_index df_price) as [out|e].
  - apply Exists_exists in Hex as (c & Hc & Hin).
    rewrite Forall_forall in H. by destruct (H c Hc).
  - exists e. split; [done|]. by destruct H.
Qed.

(** *** The valid categories *)

(** X5: the table of valid categories holds every normalized category name of
    the format table exactly once, as a text. *)
Theorem valid_categories_deduplicated df_format :
  NoDup (column "核價類別_clean" (df_format_valid df_format))
  /\ (forall c, c ∈ column "核價類別_clean" (df_format_valid df_format) <->
        exists s, c = Str s /\ s ∈ valid_category_set nfkc lower df_format).
Proof.
  unfold column. rewrite df_format_valid_rows.
  set (vs := keep_first (map (valid_row nfkc lower) (rows df_format))).
  assert (Hvs : forall r, r ∈ vs <->
            exists f, f ∈ rows df_format /\ r = valid_row nfkc lower f).
  { intros r. unfold vs. rewrite keep_first_elem_of, elem_of_map.
    split; intros (f & ? & ?); by exists f. }
  split.
  - rewrite map_fmap. apply NoDup_fmap_2_strong; [|apply keep_first_NoDup].
    intros x y (fx & _ & ->)%Hvs (fy & _ & ->)%Hvs.
    rewrite !get_valid_row. unfold valid_row. by intros ->.
  - intros c. unfold valid_category_set.
    setoid_rewrite elem_of_list_to_set. setoid_rewrite elem_of_map. split.
    + intros (r & -> & (f & Hf & ->)%Hvs). rewrite get_valid_row.
      eexists. split; [reflexivity|]. by exists f.
    + intros (s & -> & (f & -> & Hf)). exists (valid_row nfkc lower f).
      rewrite get_valid_row. split; [done|]. apply Hvs. by exists f.
Qed.

End OutputFacts.

(** ** The files [HistoryDataSearch] touches *)

Section FileFacts.
Import Frame History.

Variable nfkc : ustr -> ustr.
Variable lower : ustr -> ustr.
Variable os_error_str : ExnClass -> string -> string.
Variable path_join : string -> string -> string.

Lemma read_csv_Return path fs df :
  read_csv os_error_str path fs = Return df -> fs !! path = Some (CsvFile df).
Proof.
  unfold read_csv. destruct (fs !! path) as [[| |]|]; by intros [= ->].
Qed.

Lemma to_csv_Return path df fs fs' :
  to_csv os_error_str path df fs = Return fs' ->
  fs' = <[path := CsvFile df]> fs /\ fs !! path <> Some Directory.
Proof.
  unfold to_csv. destruct (fs !! path) as [[| |]|]; by intros [= <-].
Qed.

(** What a returning body has done. *)
Lemma try_body_Return ff xf pf outf fs result msg fs' :
  try_body nfkc lower os_error_str ff xf pf outf fs = Return (result, msg, fs') ->
  exists df_format df_index df_price,
    fs !! ff = Some (CsvFile df_format)
    /\ fs !! xf = Some (CsvFile df_index)
    /\ fs !! pf = Some (CsvFile df_price)
    /\ validated df_format df_index df_price
    /\ reconcile nfkc lower df_format df_index df_price = Return result
    /\ msg = summary result outf
    /\ fs' = <[outf := CsvFile result]> fs
    /\ fs !! outf <> Some Directory.
Proof.
  unfold try_body.
  destruct (read_csv os_error_str ff fs) as [df_format|] eqn:Hf; [|discriminate].
  destruct (read_csv os_error_str xf fs) as [df_index|] eqn:Hx; [|discriminate].
  destruct (read_csv os_error_str pf fs) as [df_price|] eqn:Hp; [|discriminate].
  cbn [mbind Outcome_bind].
  destruct (check_columns _) as [[]|] eqn:Hv; [|discriminate].
  destruct (reconcile nfkc lower df_format df_index df_price) as [out|] eqn:Hr;
    [|discriminate].
  cbn [mbind Outcome_bind].
  destruct (to_csv os_error_str outf out fs) as [fs1|] eqn:Hw; [|discriminate].
  cbn [mbind Outcome_bind mret Outcome_ret]. intros [= <- <- <-].
  apply read_csv_Return in Hf, Hx, Hp. apply to_csv_Return in Hw as [-> Hdir].
  by exists df_format, df_index, df_price.
Qed.

(** X6: a run that returns no table leaves every file as it was.  A run
    that returns a table has read three frames that pass the validation,
    returns their reconciliation with its summary, and has changed the
    output path only, which now holds the returned table. *)
Theorem HistoryDataSearch_effect
    base_dir data_dir format_file index_file price_file output_file fs :
  let dd := py_or data_dir (path_join base_dir "data") in
  let ff := py_or format_file (path_join dd "format_clean.csv") in
  let xf := py_or index_file (path_join dd "IndexSQL_find.csv") in
  let pf := py_or price_file (path_join dd "價量調查品項108-112_FINAL.csv") in
  let outf := py_or output_file (path_join dd "HistoryData.csv") in
  let res :=
    HistoryDataSearch nfkc lower os_error_str path_join base_dir data_dir
      format_file index_file price_file output_file fs in
  match res.1.1 with
  | None => res.2 = fs
  | Some out =>
      res.2 = <[outf := CsvFile out]> fs
      /\ (forall path, path <> outf -> res.2 !! path = fs !! path)
      /\ res.1.2 = summary out outf
      /\ exists df_format df_index df_price,
           fs !! ff = Some (CsvFile df_format)
           /\ fs !! xf = Some (CsvFile df_index)
           /\ fs !! pf = Some (CsvFile df_price)
           /\ validated df_format df_index df_price
           /\ reconcile nfkc lower df_format df_index df_price = Return out
  end.
Proof.
  intros dd ff xf pf outf res.
  assert (Hres : res = try_except nfkc lower os_error_str ff xf pf outf fs)
    by reflexivity.
  rewrite Hres. unfold try_except. clear Hres res.
  destruct (try_body nfkc lower os_error_str ff xf pf outf fs)
    as [[[result msg] fs']|e] eqn:E; [|done].
  apply try_body_Return in E
    as (df_format & df_index & df_price & Hf & Hx & Hp & Hv & Hr & -> & -> & _).
  cbn [fst snd]. split; [done|]. split.
  - intros path Hne. by rewrite lookup_insert_ne.
  - split; [done|]. by exists df_format, df_index, df_price.
Qed.

End FileFacts.

(** ** Queries and expansion *)

Section ExpansionFacts.
Import IndexSQL FrameFacts.

Lemma product_row_round_trip r : product_of_row (row_of_product r) = r.
Proof. destruct r as [[c|] [n|] [z|] [t|]]; by vm_compute. Qed.

Lemma sql_eq_true v param :
  sql_true (sql_eq v param) = true <-> exists s, v = Some s /\ param = Some s.
Proof.
  destruct v as [a|], param as [b|]; cbn [sql_eq sql_true].
  - case_bool_decide as Hab.
    + subst b. split; [by exists a|done].
    + split; [done|]. intros (s & [= ->] & [= ->]). done.
  - split; [done|]. by intros (s & _ & ?).
  - split; [done|]. by intros (s & ? & _).
  - split; [done|]. by intros (s & ? & _).
Qed.

(** X7: the query returns the products of the given code, in the order of the
    table and with all their fields; a NULL code matches no product, not
    even one whose code is NULL. *)
Theorem query_products_by_function_spec products ref_code :
  columns (query_products_by_function products ref_code) = product_columns
  /\ map product_of_row (rows (query_products_by_function products ref_code))
     = filter (fun r => code r = ref_code /\ ref_code <> None) products.
Proof.
  split; [done|]. unfold query_products_by_function. cbn [rows].
  rewrite map_map. erewrite map_ext by (intros r; apply product_row_round_trip).
  rewrite map_id. apply filter_iff. intros r _.
  rewrite sql_eq_true. split.
  - intros (s & -> & ->). done.
  - intros [<- Hne]. destruct (code r) as [s|]; [by exists s|done].
Qed.

Lemma expand_cons products keyword m matched init :
  expand products keyword (m :: matched) init
  = expand products keyword matched
      (concat init (match_frame products keyword m)).
Proof. reflexivity. Qed.

Lemma match_frame_rows products keyword m :
  rows (match_frame products keyword m)
  = map (fun r => <["參考產品" := cell_of_sql m.1]>
                    (<["搜尋關鍵字" := Str keyword]> (row_of_product r)))
        (filter (fun r => code r = m.2 /\ m.2 <> None) products).
Proof.
  unfold match_frame, assign_scalar, query_products_by_function. cbn [rows].
  rewrite !map_map. f_equal. apply filter_iff. intros r _.
  rewrite sql_eq_true. split.
  - intros (s & -> & ->). done.
  - intros [<- Hne]. destruct (code r) as [s|]; [by exists s|done].
Qed.

Lemma expand_rows products keyword matched init :
  rows (expand products keyword matched init)
  = rows init ++ flat_map (fun m => rows (match_frame products keyword m)) matched.
Proof.
  revert init. induction matched as [|m ms IH]; intros init.
  - by rewrite app_nil_r.
  - rewrite expand_cons, IH. cbn [concat rows flat_map]. by rewrite <- app_assoc.
Qed.

Lemma expand_columns products keyword matched init :
  columns init = expansion_columns ->
  columns (expand products keyword matched init) = expansion_columns.
Proof.
  revert init. induction matched as [|m ms IH]; intros init Hinit; [done|].
  rewrite expand_cons. apply IH. unfold concat. cbn [columns].
  rewrite Hinit. by vm_compute.
Qed.

Lemma match_frame_cells products keyword m :
  map product_of_row (rows (match_frame products keyword m))
  = filter (fun r => code r = m.2 /\ m.2 <> None) products
  /\ map (get "搜尋關鍵字") (rows (match_frame products keyword m))
     = replicate (length (rows (match_frame products keyword m))) (Str keyword)
  /\ map (get "參考產品") (rows (match_frame products keyword m))
     = replicate (length (filter (fun r => code r = m.2 /\ m.2 <> None) products))
                 (cell_of_sql m.1).
Proof.
  rewrite match_frame_rows, !map_map, length_map.
  induction (filter _ products) as [|r rs (IH1 & IH2 & IH3)]; [done|].
  cbn [map length replicate]. rewrite IH1, IH2, IH3.
  rewrite get_insert_eq, get_insert_ne by (by vm_compute).
  rewrite get_insert_eq. split; [|done]. f_equal.
  destruct r as [[c|] [n|] [z|] [t|]]; by vm_compute.
Qed.

(** X8: the expansion has one row for every pair of a match and a product of
    the code of that match, match after match: a product is repeated for
    every match that has its code.  Every row carries the keyword and the
    name of its match. *)
Theorem expand_spec products keyword m matched :
  let all_results_df := expand products keyword (m :: matched) empty_frame in
  let siblings (m : option ustr * option ustr) :=
    filter (fun r => code r = m.2 /\ m.2 <> None) products in
  columns all_results_df = expansion_columns
  /\ map product_of_row (rows all_results_df)
     = flat_map siblings (m :: matched)
  /\ column "搜尋關鍵字" all_results_df
     = replicate (nrows all_results_df) (Str keyword)
  /\ column "參考產品" all_results_df
     = flat_map (fun m => replicate (length (siblings m)) (cell_of_sql m.1))
                (m :: matched).
Proof.
  cbv zeta. split.
  - rewrite expand_cons. apply expand_columns. by vm_compute.
  - unfold column, nrows. rewrite expand_rows. cbn [rows empty_frame app].
    generalize (m :: matched). intros ms.
    induction ms as [|m' ms (IH1 & IH2 & IH3)]; [done|].
    cbn [flat_map]. rewrite !map_app, length_app, replicate_add, IH1, IH2, IH3.
    destruct (match_frame_cells products keyword m') as (-> & -> & ->). done.
Qed.

End ExpansionFacts.

(** ** The search *)

Section SearchFacts.
Import IndexSQL LikeFacts FrameFacts.

Variable score : ustr -> option ustr -> Z.

Lemma fetch_code_Some products n c :
  fetch_code products n = Some c ->
  exists r s, r ∈ products /\ n = Some s /\ name r = Some s /\ code r = c.
Proof.
  unfold fetch_code.
  destruct (filter _ products) as [|r rs] eqn:E; [done|]. intros [= <-].
  assert (Hr : r ∈ filter
            (fun r => sql_true (sql_eq (name r) n) = true) products)
    by (rewrite E; by left).
  apply list_elem_of_filter in Hr as [(s & Hname & ->)%sql_eq_true Hr].
  by exists r, s.
Qed.

Lemma resolve_elem products threshold matches m :
  m ∈ resolve products threshold matches ->
  fetch_code products m.1 = Some m.2
  /\ exists s, (m.1, s) ∈ matches /\ (threshold <= s)%Z.
Proof.
  unfold resolve. rewrite list_elem_of_In, in_flat_map.
  intros ([n s] & Hin%list_elem_of_In & Hm). cbn [fst snd] in Hm.
  destruct (threshold <=? s)%Z eqn:E; [|done]. apply Z.leb_le in E.
  destruct (fetch_code products n) as [c|] eqn:Ec; [|done].
  destruct Hm as [<-|[]]. split; [done|]. by exists s.
Qed.

(** X9: every pair the search returns is the name and the code of a product
    of the table; in the fuzzy stage the name is not NULL and the code is
    the one of the first product of that name. *)
Theorem search_returns_products products keyword threshold m :
  m ∈ fuzzy_search_product score products keyword threshold ->
  exists r, r ∈ products /\ name r = m.1 /\ code r = m.2.
Proof.
  unfold fuzzy_search_product.
  destruct (direct_matches products keyword) as [|d ds] eqn:E.
  - intros [Hcode _]%resolve_elem.
    apply fetch_code_Some in Hcode as (r & s & Hr & -> & Hname & Hcode).
    by exists r.
  - rewrite <- E. intros (r & -> & Hr)%elem_of_map.
    exists r. split; [|done]. unfold direct_matches in Hr.
    by apply list_elem_of_filter in Hr as [_ ?].
Qed.

Lemma resolve_sublist products t1 t2 matches :
  (t1 <= t2)%Z ->
  sublist (resolve products t2 matches) (resolve products t1 matches).
Proof.
  intros Hle. induction matches as [|m ms IH]; [done|].
  rewrite !resolve_cons. apply sublist_app; [|done].
  destruct (t2 <=? m.2)%Z eqn:E2.
  - apply Z.leb_le in E2. rewrite (proj2 (Z.leb_le t1 m.2)) by lia. done.
  - apply sublist_nil_l.
Qed.

(** X10: raising the threshold only removes results: the result for the larger
    threshold is the result for the smaller one with some pairs left
    out. *)
Theorem threshold_monotone products keyword t1 t2 :
  (t1 <= t2)%Z ->
  sublist (fuzzy_search_product score products keyword t2)
          (fuzzy_search_product score products keyword t1).
Proof.
  intros Hle. unfold fuzzy_search_product, fuzzy_matches.
  destruct (direct_matches products keyword); [|done].
  by apply resolve_sublist.
Qed.

End SearchFacts.

(** ** The collation of the exact stage *)

Module CollationFacts.
Import IndexSQL LikeFacts FrameFacts.

Ltac tolower_cases :=
  unfold like_char_eq, is_meta, sqlite_tolower, percent, underscore;
  repeat match goal with
  | |- context [if ?b then _ else _] => destruct b eqn:?
  end;
  apply Bool.eq_iff_eq_true;
  repeat match goal with
  | H : _ = true |- _ => prop_of_bool H
  | H : _ = false |- _ => apply not_true_iff_false in H; prop_of_bool H
  end;
  rewrite ?orb_true_iff, ?andb_true_iff, ?N.eqb_eq, ?N.ltb_lt, ?N.leb_le;
  lia.

Lemma like_char_eq_tolower_l c d :
  like_char_eq (sqlite_tolower c) d = like_char_eq c d.
Proof. tolower_cases. Qed.

Lemma like_char_eq_tolower_r c d :
  like_char_eq c (sqlite_tolower d) = like_char_eq c d.
Proof. tolower_cases. Qed.

Lemma is_meta_tolower c : is_meta (sqlite_tolower c) = is_meta c.
Proof. tolower_cases. Qed.

Lemma meta_cases c :
  c = percent \/ c = underscore \/ is_meta c = false.
Proof.
  unfold is_meta. destruct (c =? percent)%N eqn:E1; [left; by apply N.eqb_eq|].
  destruct (c =? underscore)%N eqn:E2; [right; left; by apply N.eqb_eq|].
  by right; right.
Qed.

(** The case of the ASCII letters of the pattern does not matter. *)
Lemma like_tolower_pattern p t : like (map sqlite_tolower p) t = like p t.
Proof.
  revert t. induction p as [|c p IH]; intros t; [done|]. cbn [map].
  destruct (meta_cases c) as [->|[->|Hc]].
  - change (sqlite_tolower percent) with percent.
    induction t as [|d t IHt].
    + by rewrite (like_percent_unfold _ []), (like_percent_unfold p []), IH.
    + rewrite (like_percent_unfold _ (d :: t)), (like_percent_unfold p (d :: t)).
      by rewrite IH, IHt.
  - change (sqlite_tolower underscore) with underscore.
    rewrite !like_underscore_unfold. destruct t; [done|apply IH].
  - rewrite !like_literal_unfold by (by rewrite ?is_meta_tolower).
    destruct t as [|d t]; [done|]. by rewrite like_char_eq_tolower_l, IH.
Qed.

(** The case of the ASCII letters of the text does not matter. *)
Lemma like_tolower_text p t : like p (map sqlite_tolower t) = like p t.
Proof.
  revert t. induction p as [|c p IH]; intros t; [by destruct t|].
  destruct (meta_cases c) as [->|[->|Hc]].
  - induction t as [|d t IHt]; cbn [map].
    + done.
    + rewrite (like_percent_unfold p (_ :: map _ t)), (like_percent_unfold p (d :: t)).
      rewrite IHt. f_equal. apply (IH (d :: t)).
  - rewrite !like_underscore_unfold. destruct t; [done|apply IH].
  - rewrite !like_literal_unfold by done.
    destruct t as [|d t]; [done|]. cbn [map].
    by rewrite like_char_eq_tolower_r, IH.
Qed.

Lemma search_pattern_tolower keyword :
  search_pattern (map sqlite_tolower keyword)
  = map sqlite_tolower (search_pattern keyword).
Proof. unfold search_pattern. cbn [map]. by rewrite map_app. Qed.

Lemma where_like_tolower keyword r :
  where_like (map sqlite_tolower keyword) r = where_like keyword r.
Proof.
  unfold where_like, sql_like. rewrite search_pattern_tolower.
  destruct (name r), (size_class r), (type_class r);
    cbn [fmap option_fmap option_map]; by rewrite ?like_tolower_pattern.
Qed.

(** X11: the exact stage does not tell the case of ASCII letters: a keyword and
    the keyword in lower case find the same records, and a text is matched
    exactly when the text in lower case is. *)
Theorem exact_stage_ignores_ascii_case products keyword :
  direct_matches products (map sqlite_tolower keyword)
  = direct_matches products keyword
  /\ forall text,
       like (search_pattern keyword) (map sqlite_tolower text)
       = like (search_pattern keyword) text.
Proof.
  split; [|intros text; apply like_tolower_text].
  unfold direct_matches. apply filter_iff. intros r _.
  by rewrite where_like_tolower.
Qed.

Lemma like_all_percent p t :
  Forall (fun c => c = percent) p -> p <> [] -> like p t = true.
Proof.
  induction 1 as [|c p -> Hp IH]; [done|]. intros _.
  destruct p as [|c' p']; [apply like_percent_all|].
  apply like_percent_suffix. by apply IH.
Qed.

(** X12: a keyword made of [%] only, and the empty keyword, find every record
    that has a text in its name, size class or type class, and no other
    record. *)
Theorem wildcard_only_keyword products keyword r :
  Forall (fun c => c = percent) keyword ->
  r ∈ direct_matches products keyword <-> r ∈ products /\ searchable r.
Proof.
  intros Hk.
  assert (H : forall t, like (search_pattern keyword) t = true).
  { intros t. apply like_all_percent; [|done]. unfold search_pattern.
    constructor; [done|]. apply Forall_app. split; [done|]. by constructor. }
  unfold direct_matches. rewrite list_elem_of_filter, where_like_iff.
  unfold searchable, sql_like.
  destruct (name r) as [n|], (size_class r) as [z|], (type_class r) as [y|];
    cbn [fmap option_fmap option_map]; rewrite ?H; intuition congruence.
Qed.

End CollationFacts.

(** ** The files [search_products] touches *)

Section SearchFileFacts.
Import IndexSQL FrameFacts.

Variable score : ustr -> option ustr -> Z.
Variable os_error_str : ExnClass -> string -> string.
Variable path_join : string -> string -> string.
Variable path_dirname : string -> string.

Abbreviation search_products :=
  (search_products score os_error_str path_join path_dirname).


(** X14: the table a search writes has the columns the reconciliation requires
    of the expanded table. *)
Theorem expansion_passes_validation products keyword m matched :
  History.missing_columns History.required_index
    (expand products keyword (m :: matched) empty_frame) = [].
Proof.
  unfold History.missing_columns.
  assert (H : columns (expand products keyword (m :: matched) empty_frame)
              = expansion_columns).
  { rewrite expand_cons. apply expand_columns. by vm_compute. }
  rewrite H. by vm_compute.
Qed.

End SearchFileFacts.

(** ** The worker of the user interface *)

Section WorkerFacts.
Import IndexSQL History.

Variable nfkc : ustr -> ustr.
Variable lower : ustr -> ustr.
Variable score : ustr -> option ustr -> Z.
Variable os_error_str : ExnClass -> string -> string.
Variable path_join : string -> string -> string.
Variable path_dirname : string -> string.

Abbreviation run := (App.run nfkc lower score os_error_str path_join path_dirname).
Abbreviation search := (search_products score os_error_str path_join path_dirname).

Lemma py_or_same s : py_or (Some s) s = s.
Proof. unfold py_or. by case_bool_decide. Qed.

Lemma py_or_nonempty s d : s <> "" -> py_or (Some s) d = s.
Proof. intros H. unfold py_or. by rewrite bool_decide_eq_false_2. Qed.

Lemma handler_nonempty e : handler e <> "".
Proof.
  unfold handler. by destruct (is_FileNotFoundError e), (is_ValueError e).
Qed.

Lemma summary_nonempty result output_file : summary result output_file <> "".
Proof. done. Qed.

(** The worker as the search followed by the reconciliation. *)
Lemma run_after_search keyword base_dir fs fs1 ff xf pf outf :
  search keyword (path_join (path_join base_dir "data") "IndexCode.csv") fs
  = Return fs1 ->
  ff = path_join (path_join base_dir "data") "format_clean.csv" ->
  xf = path_join (path_join base_dir "data") "IndexSQL_find.csv" ->
  pf = py_or (Some (path_join (path_join base_dir "data") "價量調查品項108-112.csv"))
             (path_join (path_join base_dir "data") "價量調查品項108-112_FINAL.csv") ->
  outf = path_join (path_join base_dir "data") "HistoryData.csv" ->
  run keyword base_dir fs
  = match try_except nfkc lower os_error_str ff xf pf outf fs1 with
    | ((None, msg), fs2) => ((empty_frame, "", msg), fs2)
    | ((Some df, msg), fs2) => ((df, msg, ""), fs2)
    end.
Proof.
  intros Hs -> -> -> ->. unfold App.run. cbv zeta. rewrite Hs.
  unfold HistoryDataSearch. cbv zeta. by rewrite !py_or_same.
Qed.

(** X15: the worker never emits a status message together with an error
    message, and it emits a table only without error message; when the
    search raises nothing, one of the two messages is not empty. *)
Theorem run_messages keyword base_dir fs :
  let emitted := (run keyword base_dir fs).1 in
  (emitted.1.2 = "" \/ emitted.2 = "")
  /\ (emitted.2 <> "" -> emitted.1.1 = empty_frame)
  /\ ((exists fs1,
         search keyword (path_join (path_join base_dir "data") "IndexCode.csv") fs
         = Return fs1) ->
      emitted.1.2 <> "" \/ emitted.2 <> "").
Proof.
  cbv zeta.
  destruct (search keyword (path_join (path_join base_dir "data") "IndexCode.csv") fs)
    as [fs1|e] eqn:Hs.
  - rewrite (run_after_search _ _ _ _ _ _ _ _ Hs eq_refl eq_refl eq_refl eq_refl).
    unfold try_except.
    destruct (try_body _ _ _ _ _ _ _ _) as [[[result msg] fs2]|e] eqn:Hb;
      cbn [fst snd].
    + split; [by right|]. split; [done|]. intros _. left.
      unfold try_body in Hb.
      repeat match type of Hb with
      | context [mbind _ ?m] => destruct m; cbn [mbind Outcome_bind] in Hb;
                                 [|discriminate]
      end.
      cbn [mret Outcome_ret] in Hb. injection Hb as <- <- <-.
      apply summary_nonempty.
    + split; [by left|]. split; [done|]. intros _. right. apply handler_nonempty.
  - unfold App.run. cbv zeta. rewrite Hs. cbn [fst snd].
    split; [by left|]. split; [done|]. intros [fs1 ?]. done.
Qed.



End WorkerFacts.

(** ** The whitespace steps of the normalizer *)

Module WhitespaceFacts.
Import Text TextFacts.

(** X18: after [strip] and the replacement of whitespace runs, a text neither
    starts nor ends with whitespace, its only whitespace characters are
    single U+0020 between two other characters, and the two steps leave it
    as it is. *)
Theorem whitespace_steps_normal s :
  let t := re_sub_ws (strip s) in
  starts_ok t = true /\ ends_ok t = true /\ canon t = true
  /\ strip t = t /\ re_sub_ws t = t.
Proof.
  cbv zeta. unfold re_sub_ws.
  pose proof (canon_sub_ws (strip s) false (ends_ok_strip s)) as Hc.
  pose proof (starts_ok_sub_ws (strip s) (starts_ok_strip s)) as Hs.
  pose proof (canon_ends_ok _ Hc) as He.
  repeat split; try done.
  - by apply strip_id.
  - by apply canon_sub_ws_id.
Qed.

Abbreviation visible := (fun c : N => isspace c = false).

Lemma filter_lstrip s : filter visible (lstrip s) = filter visible s.
Proof.
  induction s as [|c t IH]; [done|]. cbn [lstrip].
  destruct (isspace c) eqn:E; [|done].
  rewrite (filter_cons _ c), decide_False; [done|]. by rewrite E.
Qed.

Lemma filter_rev (s : ustr) : filter visible (rev s) = rev (filter visible s).
Proof.
  induction s as [|c t IH]; [done|]. cbn [rev].
  rewrite filter_app, IH, (filter_cons _ c t), (filter_cons _ c []), filter_nil.
  destruct (decide (visible c)); [done|]. by rewrite app_nil_r.
Qed.

Lemma filter_strip s : filter visible (strip s) = filter visible s.
Proof.
  unfold strip, rstrip.
  by rewrite filter_rev, filter_lstrip, filter_rev, rev_involutive, filter_lstrip.
Qed.

Lemma filter_sub_ws b s : filter visible (sub_ws b s) = filter visible s.
Proof.
  revert b. induction s as [|c t IH]; intros b; [done|]. cbn [sub_ws].
  destruct (isspace c) eqn:E.
  - rewrite (filter_cons _ c t), decide_False by (by rewrite E).
    destruct b; [apply IH|].
    rewrite (filter_cons _ 0x20%N), decide_False by done. apply IH.
  - rewrite (filter_cons _ c (sub_ws false t)), (filter_cons _ c t).
    rewrite !decide_True by done. by rewrite IH.
Qed.

Lemma length_lstrip s : length (lstrip s) <= length s.
Proof.
  induction s as [|c t IH]; simpl; [lia|]. destruct (isspace c); simpl; lia.
Qed.

Lemma length_strip s : length (strip s) <= length s.
Proof.
  unfold strip, rstrip. rewrite length_rev.
  pose proof (length_lstrip (rev (lstrip s))) as H1.
  pose proof (length_lstrip s) as H2. rewrite length_rev in H1. lia.
Qed.

Lemma length_sub_ws b s : length (sub_ws b s) <= length s.
Proof.
  revert b. induction s as [|c t IH]; intros b; simpl; [lia|].
  destruct (isspace c), b; simpl;
    try (pose proof (IH true)); try (pose proof (IH false)); lia.
Qed.

(** X19: the two whitespace steps keep the characters that are not whitespace,
    in their order, and never make the text longer. *)
Theorem whitespace_steps_keep_text s :
  filter visible (re_sub_ws (strip s)) = filter visible s
  /\ length (re_sub_ws (strip s)) <= length s.
Proof.
  unfold re_sub_ws. split.
  - by rewrite filter_sub_ws, filter_strip.
  - pose proof (length_sub_ws false (strip s)).
    pose proof (length_strip s). lia.
Qed.

End WhitespaceFacts.

(** * More scenarios *)

Module RunScenarios.
Import Sample.

Lemma output_schema_witness :
  exists out,
    History.reconcile nfkc lower df_format df_index df_price = Return out
    /\ columns out
       = ["年份"; "特材代碼"; "特材代碼前五碼"; "核價類別名稱"; "點數變更記錄"].
Proof.
  destruct (History.reconcile nfkc lower df_format df_index df_price)
    as [out|e] eqn:E; [|by vm_compute in E].
  exists out. split; [done|].
  destruct (output_schema nfkc lower _ _ _ out E) as [-> _]. by vm_compute.
Defined.

Lemma output_cells_witness :
  exists out,
    History.reconcile nfkc lower df_format df_index_siblings df_price = Return out
    /\ column "核價類別名稱" out
       = [Str (u "Foo"); Str (u "Foo"); Str (u "Bar"); Str (u "Bar")].
Proof.
  destruct (History.reconcile nfkc lower df_format df_index_siblings df_price)
    as [out|e] eqn:E; [|by vm_compute in E].
  exists out. split; [done|].
  rewrite (output_cells nfkc lower _ _ _ out "核價類別名稱" E);
    [by vm_compute | decide_labels | done | decide_labels].
Defined.

Lemma summary_counts_witness :
  exists out,
    History.reconcile nfkc lower df_format df_index_siblings df_price = Return out
    /\ nrows out = 4
    /\ (0 <= Frame.sum_column "點數變更記錄" out <= 4)%Z.
Proof.
  destruct (History.reconcile nfkc lower df_format df_index_siblings df_price)
    as [out|e] eqn:E; [|by vm_compute in E].
  exists out. split; [done|].
  destruct (summary_counts nfkc lower _ _ _ out E) as [Hn Hsum].
  assert (H4 : nrows out = 4) by (rewrite Hn; by vm_compute).
  split; [done|]. by rewrite H4 in Hsum.
Defined.

Lemma indicator_column_refused_witness :
  Exists (fun c => c ∈ columns df_price_merge) Frame.reserved_indicator_columns
  /\ exists e,
       History.reconcile nfkc lower df_format df_index df_price_merge = Raise e
       /\ exn_class e = ValueError.
Proof.
  assert (H : Exists (fun c => c ∈ columns df_price_merge)
                Frame.reserved_indicator_columns) by decide_labels.
  split; [done|].
  apply (indicator_column_refused nfkc lower df_format df_index
           df_price_merge H).
Defined.

Lemma search_returns_products_witness :
  (Some (u "Scalpel Mini"), Some (u "AB123"))
    ∈ IndexSQL.fuzzy_search_product score products (u "scalpl") 40
  /\ exists r,
       r ∈ products /\ IndexSQL.name r = Some (u "Scalpel Mini")
       /\ IndexSQL.code r = Some (u "AB123").
Proof.
  assert (H : (Some (u "Scalpel Mini"), Some (u "AB123"))
                ∈ IndexSQL.fuzzy_search_product score products (u "scalpl") 40)
    by decide_labels.
  split; [done|].
  apply (search_returns_products score products (u "scalpl") 40 _ H).
Defined.

Lemma threshold_monotone_witness :
  (40 <= 90)%Z
  /\ sublist (IndexSQL.fuzzy_search_product score products (u "scalpl") 90)
             (IndexSQL.fuzzy_search_product score products (u "scalpl") 40).
Proof.
  assert (H : (40 <= 90)%Z) by lia. split; [done|].
  by apply threshold_monotone.
Defined.

Lemma wildcard_only_keyword_witness :
  Forall (fun c => c = IndexSQL.percent) (u "%%")
  /\ (IndexSQL.mkProduct (Some (u "CD456")) (Some (u "Forceps"))
        (Some (u "S")) (Some (u "T"))
        ∈ IndexSQL.direct_matches products (u "%%")).
Proof.
  assert (H : Forall (fun c => c = IndexSQL.percent) (u "%%"))
    by (repeat constructor).
  split; [done|].
  apply (CollationFacts.wildcard_only_keyword products (u "%%") _ H).
  split; [decide_labels|]. by left.
Defined.



End RunScenarios.
